(** * certutil: PEM parsing, public-key comparison and key sizing

    A shallow embedding of [certutil.go] and the properties of its three
    groups of functions: the PEM-to-structure parsers, [ComparePublicKeys]
    and [KeySize].

    Modelling conventions.
    - [*big.Int] is [Z]: math/big keeps its magnitudes normalised, so a value
      has one representation and [Cmp] is numeric comparison.
    - Go's [int] is the 64-bit two's-complement integer; the one place where
      this package does arithmetic on it ([* 8] in [KeySize]) wraps.
    - An interface value ([crypto.PublicKey], [interface{}]) is a value of
      [any]: the nil interface, or a dynamic type together with its value.
      Pointers held in an interface point to a key (they are the keys the
      crypto packages hand out); the pointee is carried by the constructor.
      [nilable] has [KeySize] once more, on values whose pointers may be
      nil, where a nil dereference is a panic.
    - The standard-library collaborators that decode bytes ([pem.Decode] and
      the four [x509.Parse...] functions) are Section variables of the
      parsers: nothing is assumed about what they accept. *)

From Stdlib Require Import ZArith List String Ascii Bool Lia.
From Stdlib Require Import Strings.Byte.
Import ListNotations.

Local Open Scope Z_scope.

(** ** Go's built-in types *)

Definition min_int : Z := - 2 ^ 63.
Definition max_int : Z := 2 ^ 63 - 1.

(** The value an [int] expression has after overflow wrapped it. *)
Definition int_wrap (z : Z) : Z := (z + 2 ^ 63) mod 2 ^ 64 - 2 ^ 63.

Definition int_mul (x y : Z) : Z := int_wrap (x * y).

(** [len] of a byte slice. *)
Definition len (b : list byte) : Z := Z.of_nat (List.length b).

(** [[]byte(s)] *)
Definition bytes_of_string (s : string) : list byte := list_byte_of_string s.

Module errors.
(** An [error] value, observed through its [Error()] text. *)
Record error : Type := New { Error : string }.
End errors.
Definition error : Type := errors.error.

(** The [(v, err)] result of a decoder: [err] is nil exactly when [v] is the
    decoded value. *)
Inductive result (A : Type) : Type :=
| Ok (v : A)
| Err (err : error).
Arguments Ok {A} v.
Arguments Err {A} err.

(** ** math/big *)

Module big.
Definition Int : Type := Z.

(** [x.Cmp(y)]: -1, 0 or +1 as x is below, equal to or above y. *)
Definition Cmp (x y : Int) : Z :=
  match x ?= y with
  | Lt => -1
  | Eq => 0
  | Gt => 1
  end.

(** [x.BitLen()]: the length of the absolute value in bits; 0 for 0. *)
Definition BitLen (x : Int) : Z :=
  if x =? 0 then 0 else Z.log2 (Z.abs x) + 1.
End big.

(** ** crypto/elliptic *)

Module elliptic.
Record CurveParams : Type := mkCurveParams {
  P : big.Int;        (* the order of the underlying field *)
  N : big.Int;        (* the order of the base point *)
  B : big.Int;        (* the constant of the curve equation *)
  Gx : big.Int;
  Gy : big.Int;       (* (x,y) of the base point *)
  BitSize : Z;        (* the size of the underlying field *)
  Name : string
}.

(** A [Curve] is seen by this package through [Params()] only. *)
Record Curve : Type := mkCurve { Params : CurveParams }.

(** [elliptic.P256()] (FIPS 186-3, section D.2.3). *)
Definition p256Params : CurveParams := {|
  P := 2 ^ 256 - 2 ^ 224 + 2 ^ 192 + 2 ^ 96 - 1;
  N := 0xffffffff00000000ffffffffffffffffbce6faada7179e84f3b9cac2fc632551;
  B := 0x5ac635d8aa3a93e7b3ebbd55769886bc651d06b0cc53b0f63bce3c3e27d2604b;
  Gx := 0x6b17d1f2e12c4247f8bce6e563a440f277037d812deb33a0f4a13945d898c296;
  Gy := 0x4fe342e2fe1a7f9b8ee7eb4a7c0f9e162bce33576b315ececbb6406837bf51f5;
  BitSize := 256;
  Name := "P-256"
|}.

Definition P256 : Curve := mkCurve p256Params.
End elliptic.

(** ** crypto/rsa *)

Module rsa.
Record PublicKey : Type := mkPublicKey {
  N : big.Int;   (* modulus *)
  E : Z          (* public exponent, an int *)
}.

Record PrivateKey : Type := mkPrivateKey {
  PrivateKey_PublicKey : PublicKey;   (* embedded *)
  D : big.Int;
  Primes : list big.Int
}.

(** [pub.Size()]: the modulus size in bytes, [(pub.N.BitLen() + 7) / 8]. *)
Definition Size (pub : PublicKey) : Z := Z.quot (big.BitLen (N pub) + 7) 8.
End rsa.

(** ** crypto/ecdsa *)

Module ecdsa.
Record PublicKey : Type := mkPublicKey {
  PublicKey_Curve : elliptic.Curve;   (* embedded *)
  X : big.Int;
  Y : big.Int
}.

Record PrivateKey : Type := mkPrivateKey {
  PrivateKey_PublicKey : PublicKey;   (* embedded *)
  D : big.Int
}.

(** [key.Params()], promoted from the embedded curve. *)
Definition Params (pub : PublicKey) : elliptic.CurveParams :=
  elliptic.Params (PublicKey_Curve pub).
End ecdsa.

(** ** crypto/ed25519 *)

Module ed25519.
Definition PublicKey : Type := list byte.
Definition PrivateKey : Type := list byte.

Definition PublicKeySize : Z := 32.
(** A private key is the 32-byte seed followed by the public key. *)
Definition PrivateKeySize : Z := 64.

Fixpoint bytes_eqb (x y : list byte) : bool :=
  match x, y with
  | [], [] => true
  | a :: x', b :: y' => Byte.eqb a b && bytes_eqb x' y'
  | _, _ => false
  end.

(** [pub.Equal(x)] for an [x] that is an [ed25519.PublicKey]: whether the
    two slices hold the same bytes. *)
Definition Equal (pub x : PublicKey) : bool := bytes_eqb pub x.
End ed25519.

(** ** crypto/dsa *)

Module dsa.
Record Parameters : Type := mkParameters {
  P : big.Int;
  Q : big.Int;
  G : big.Int
}.

Record PublicKey : Type := mkPublicKey {
  PublicKey_Parameters : Parameters;   (* embedded *)
  Y : big.Int
}.

Record PrivateKey : Type := mkPrivateKey {
  PrivateKey_PublicKey : PublicKey;    (* embedded *)
  X : big.Int
}.
End dsa.

(** ** Interface values *)

(** The dynamic types this package tells apart, and any other one by name. *)
Inductive go_type : Type :=
| T_nil                      (* the nil interface has no dynamic type *)
| T_ptr_rsa_PublicKey        (* *rsa.PublicKey *)
| T_ptr_rsa_PrivateKey       (* *rsa.PrivateKey *)
| T_ptr_ecdsa_PublicKey      (* *ecdsa.PublicKey *)
| T_ptr_ecdsa_PrivateKey     (* *ecdsa.PrivateKey *)
| T_ed25519_PublicKey        (* ed25519.PublicKey *)
| T_ed25519_PrivateKey       (* ed25519.PrivateKey *)
| T_dsa_PublicKey            (* dsa.PublicKey *)
| T_dsa_PrivateKey           (* dsa.PrivateKey *)
| T_ptr_dsa_PublicKey        (* *dsa.PublicKey *)
| T_ptr_dsa_PrivateKey       (* *dsa.PrivateKey *)
| T_other (name : string).

(** A value of [interface{}]. *)
Inductive any : Type :=
| nil_interface
| ptr_rsa_PublicKey (key : rsa.PublicKey)
| ptr_rsa_PrivateKey (key : rsa.PrivateKey)
| ptr_ecdsa_PublicKey (key : ecdsa.PublicKey)
| ptr_ecdsa_PrivateKey (key : ecdsa.PrivateKey)
| val_ed25519_PublicKey (key : ed25519.PublicKey)
| val_ed25519_PrivateKey (key : ed25519.PrivateKey)
| val_dsa_PublicKey (key : dsa.PublicKey)
| val_dsa_PrivateKey (key : dsa.PrivateKey)
| ptr_dsa_PublicKey (key : dsa.PublicKey)
| ptr_dsa_PrivateKey (key : dsa.PrivateKey)
| other (name : string).

Definition type_of (v : any) : go_type :=
  match v with
  | nil_interface => T_nil
  | ptr_rsa_PublicKey _ => T_ptr_rsa_PublicKey
  | ptr_rsa_PrivateKey _ => T_ptr_rsa_PrivateKey
  | ptr_ecdsa_PublicKey _ => T_ptr_ecdsa_PublicKey
  | ptr_ecdsa_PrivateKey _ => T_ptr_ecdsa_PrivateKey
  | val_ed25519_PublicKey _ => T_ed25519_PublicKey
  | val_ed25519_PrivateKey _ => T_ed25519_PrivateKey
  | val_dsa_PublicKey _ => T_dsa_PublicKey
  | val_dsa_PrivateKey _ => T_dsa_PrivateKey
  | ptr_dsa_PublicKey _ => T_ptr_dsa_PublicKey
  | ptr_dsa_PrivateKey _ => T_ptr_dsa_PrivateKey
  | other name => T_other name
  end.

(** ** fmt *)

Module fmt.
Local Open Scope string_scope.

(** What the verb [%T] prints for an operand of dynamic type [t]. *)
Definition type_name (t : go_type) : string :=
  match t with
  | T_nil => "<nil>"
  | T_ptr_rsa_PublicKey => "*rsa.PublicKey"
  | T_ptr_rsa_PrivateKey => "*rsa.PrivateKey"
  | T_ptr_ecdsa_PublicKey => "*ecdsa.PublicKey"
  | T_ptr_ecdsa_PrivateKey => "*ecdsa.PrivateKey"
  | T_ed25519_PublicKey => "ed25519.PublicKey"
  | T_ed25519_PrivateKey => "ed25519.PrivateKey"
  | T_dsa_PublicKey => "dsa.PublicKey"
  | T_dsa_PrivateKey => "dsa.PrivateKey"
  | T_ptr_dsa_PublicKey => "*dsa.PublicKey"
  | T_ptr_dsa_PrivateKey => "*dsa.PrivateKey"
  | T_other name => name
  end.

(** [fmt.Sprintf] for the formats of this package, whose only verb is
    [%T]. The verb reads nothing of its operand but the dynamic type, so
    the operands are given by their types. *)
Fixpoint Sprintf (format : string) (a : list go_type) : string :=
  match format with
  | EmptyString => EmptyString
  | String c rest =>
      match rest with
      | String v rest' =>
          if (c =? "%")%char && (v =? "T")%char then
            match a with
            | t :: a' => type_name t ++ Sprintf rest' a'
            | [] => "%!T(MISSING)" ++ Sprintf rest' []
            end
          else String c (Sprintf rest a)
      | EmptyString => String c EmptyString
      end
  end.

Definition Errorf (format : string) (a : list go_type) : error :=
  errors.New (Sprintf format a).
End fmt.

(** ** encoding/pem and crypto/x509 *)

Module pem.
Record Block : Type := mkBlock {
  Type_ : string;
  Headers : list (string * string);
  Bytes : list byte
}.
End pem.

Module x509.
(** Of a certificate this package reads the [PublicKey] field only. *)
Record Certificate : Type := mkCertificate {
  Raw : list byte;
  PublicKey : any
}.
End x509.

(** ** The package *)

Module certutil.

Section Parsers.
(** [pem.Decode]: the first block found (or nil) and the rest of the
    input. *)
Variable pem_Decode : list byte -> option pem.Block * list byte.
Variable x509_ParsePKCS1PrivateKey : list byte -> result rsa.PrivateKey.
Variable x509_ParseECPrivateKey : list byte -> result ecdsa.PrivateKey.
Variable x509_ParseCertificate : list byte -> result x509.Certificate.
Variable x509_ParsePKIXPublicKey : list byte -> result any.

(** ParseRSA private key from a PEM formatted block. *)
Definition ParseRSA (s : string) : result rsa.PrivateKey :=
  let '(block, _) := pem_Decode (bytes_of_string s) in
  match block with
  | None => Err (errors.New "invalid PEM")
  | Some block => x509_ParsePKCS1PrivateKey (pem.Bytes block)
  end.

(** ParseECDSA private key from a PEM formatted block. *)
Definition ParseECDSA (s : string) : result ecdsa.PrivateKey :=
  let '(block, _) := pem_Decode (bytes_of_string s) in
  match block with
  | None => Err (errors.New "invalid PEM")
  | Some block => x509_ParseECPrivateKey (pem.Bytes block)
  end.

(** ParseX509 certificate from a PEM formatted block. *)
Definition ParseX509 (s : string) : result x509.Certificate :=
  let '(block, _) := pem_Decode (bytes_of_string s) in
  match block with
  | None => Err (errors.New "invalid PEM")
  | Some block => x509_ParseCertificate (pem.Bytes block)
  end.

(** The type switch that ends [ParsePublicKey]. *)
Definition switch_rawKey (rawKey : any) : result any :=
  match rawKey with
  | ptr_rsa_PublicKey key => Ok (ptr_rsa_PublicKey key)
  | ptr_ecdsa_PublicKey key => Ok (ptr_ecdsa_PublicKey key)
  | val_ed25519_PublicKey key => Ok (val_ed25519_PublicKey key)
  | key => Err (fmt.Errorf "unsupported key type: %T" [type_of key])
  end.

(** ParsePublicKey RSA and ECDSA public keys from a PEM formatted
    block. *)
Definition ParsePublicKey (s : string) : result any :=
  let '(block, _) := pem_Decode (bytes_of_string s) in
  match block with
  | None =>
      Err (errors.New "data does not contain any valid public keys")
  | Some block =>
      match x509_ParsePKIXPublicKey (pem.Bytes block) with
      | Ok rawKey => switch_rawKey rawKey
      | Err _ =>
          match x509_ParseCertificate (pem.Bytes block) with
          | Err err => Err err
          | Ok cert => switch_rawKey (x509.PublicKey cert)
          end
      end
  end.
End Parsers.

(** ComparePublicKeys reports whether 2 public keys are equal, error if
    not comparable.

    In each clause a failed assertion [key2, ok := key2.(T)] leaves the
    new [key2] at the zero value of [T], so both operands of [%T] have the
    clause's type. *)
Definition ComparePublicKeys (key1 key2 : any) : bool * option error :=
  match key1 with
  | ptr_rsa_PublicKey key1 =>
      match key2 with
      | ptr_rsa_PublicKey key2 =>
          let cmp :=
            negb (big.Cmp (rsa.N key1) (rsa.N key2) =? 0)
            || negb (rsa.E key1 =? rsa.E key2) in
          (cmp, None)
      | _ =>
          (false,
           Some (fmt.Errorf "key types do not match: %T and %T"
                   [T_ptr_rsa_PublicKey; T_ptr_rsa_PublicKey]))
      end

  | ptr_ecdsa_PublicKey key1 =>
      match key2 with
      | ptr_ecdsa_PublicKey key2 =>
          if negb (big.Cmp (ecdsa.X key1) (ecdsa.X key2) =? 0)
             || negb (big.Cmp (ecdsa.Y key1) (ecdsa.Y key2) =? 0)
          then (false, None)
          else
            let par1 := ecdsa.Params key1 in
            let par2 := ecdsa.Params key2 in
            let cmp :=
              negb (big.Cmp (elliptic.P par1) (elliptic.P par2) =? 0)
              || negb (big.Cmp (elliptic.N par1) (elliptic.N par2) =? 0)
              || negb (big.Cmp (elliptic.B par1) (elliptic.B par2) =? 0)
              || negb (big.Cmp (elliptic.Gx par1) (elliptic.Gx par2) =? 0)
              || negb (big.Cmp (elliptic.Gy par1) (elliptic.Gy par2) =? 0)
              || negb (elliptic.BitSize par1 =? elliptic.BitSize par2) in
            (cmp, None)
      | _ =>
          (false,
           Some (fmt.Errorf "key types do not match: %T and %T"
                   [T_ptr_ecdsa_PublicKey; T_ptr_ecdsa_PublicKey]))
      end

  | val_ed25519_PublicKey key1 =>
      match key2 with
      | val_ed25519_PublicKey key2 => (ed25519.Equal key1 key2, None)
      | _ =>
          (false,
           Some (fmt.Errorf "key types do not match: %T and %T"
                   [T_ed25519_PublicKey; T_ed25519_PublicKey]))
      end

  | key1 => (false, Some (fmt.Errorf "unsupported key type: %T" [type_of key1]))
  end.

(** KeySize returns the key size in bits for a given crypto.PrivateKey or
    crypto.PublicKey. Returns -1 it key type is unsupported. *)
Definition KeySize (key : any) : Z :=
  match key with
  | ptr_rsa_PrivateKey key =>
      int_mul (rsa.Size (rsa.PrivateKey_PublicKey key)) 8
  | ptr_rsa_PublicKey key => int_mul (rsa.Size key) 8

  | ptr_ecdsa_PrivateKey key =>
      elliptic.BitSize (ecdsa.Params (ecdsa.PrivateKey_PublicKey key))
  | ptr_ecdsa_PublicKey key => elliptic.BitSize (ecdsa.Params key)

  | val_ed25519_PrivateKey key => int_mul (len key) 8
  | val_ed25519_PublicKey key => int_mul (len key) 8

  | val_dsa_PrivateKey key => big.BitLen (dsa.Y (dsa.PrivateKey_PublicKey key))
  | val_dsa_PublicKey key => big.BitLen (dsa.Y key)

  | _ => -1
  end.

(** The public-key families: the three dynamic types that the switches of
    [ParsePublicKey] and [ComparePublicKeys] name. *)
Inductive family : Type := RSA | EC | Ed25519.

Definition family_of (key : any) : option family :=
  match key with
  | ptr_rsa_PublicKey _ => Some RSA
  | ptr_ecdsa_PublicKey _ => Some EC
  | val_ed25519_PublicKey _ => Some Ed25519
  | _ => None
  end.

(** The six curve parameters that [ComparePublicKeys] reads ([Name] is
    not among them). *)
Definition same_domain_parameters (par1 par2 : elliptic.CurveParams)
  : Prop :=
  elliptic.P par1 = elliptic.P par2 /\
  elliptic.N par1 = elliptic.N par2 /\
  elliptic.B par1 = elliptic.B par2 /\
  elliptic.Gx par1 = elliptic.Gx par2 /\
  elliptic.Gy par1 = elliptic.Gy par2 /\
  elliptic.BitSize par1 = elliptic.BitSize par2.

(** The types that the cases of [KeySize] name. *)
Definition KeySize_types : list go_type :=
  [ T_ptr_rsa_PrivateKey; T_ptr_rsa_PublicKey;
    T_ptr_ecdsa_PrivateKey; T_ptr_ecdsa_PublicKey;
    T_ed25519_PrivateKey; T_ed25519_PublicKey;
    T_dsa_PrivateKey; T_dsa_PublicKey ].
End certutil.

(** ** Test data *)

Module testdata.
(** The textbook RSA key: n = 61 * 53, e = 17. *)
Definition rsa_pub : rsa.PublicKey := rsa.mkPublicKey 3233 17.
Definition rsa_pub_other_exponent : rsa.PublicKey := rsa.mkPublicKey 3233 413.

(** A modulus of 2048 bits. *)
Definition rsa_pub_2048 : rsa.PublicKey :=
  rsa.mkPublicKey (2 ^ 2047 + 2 ^ 1024 + 1) 65537.
Definition rsa_priv_2048 : rsa.PrivateKey :=
  rsa.mkPrivateKey rsa_pub_2048 3 [].

(** The P-256 key of the private scalar 1: the base point. *)
Definition ec_pub : ecdsa.PublicKey :=
  ecdsa.mkPublicKey elliptic.P256
    (elliptic.Gx elliptic.p256Params) (elliptic.Gy elliptic.p256Params).
Definition ec_priv : ecdsa.PrivateKey := ecdsa.mkPrivateKey ec_pub 1.

(** The P-256 key of the private scalar 2. *)
Definition ec_pub_2 : ecdsa.PublicKey :=
  ecdsa.mkPublicKey elliptic.P256
    0x7cf27b188d034f7e8a52380304b51ac3c08969e277f21b35a60b48fc47669978
    0x07775510db8ed040293d9ac69f7430dbba7dade63ce982299e04b79d227873d1.

(** The coordinates of [ec_pub] under a curve whose parameters differ
    from P-256 in the declared bit size. *)
Definition p256_bitsize_255 : elliptic.Curve :=
  elliptic.mkCurve
    (elliptic.mkCurveParams
       (elliptic.P elliptic.p256Params) (elliptic.N elliptic.p256Params)
       (elliptic.B elliptic.p256Params) (elliptic.Gx elliptic.p256Params)
       (elliptic.Gy elliptic.p256Params) 255 "P-256").
Definition ec_pub_other_curve : ecdsa.PublicKey :=
  ecdsa.mkPublicKey p256_bitsize_255 (ecdsa.X ec_pub) (ecdsa.Y ec_pub).

(** An Ed25519 key pair: the 32-byte public key, and the 64-byte private
    key made of the seed followed by the public key. *)
Definition ed_pub : ed25519.PublicKey :=
  [ xd7; x5a; x98; x01; x82; xb1; x0a; xb7; xd5; x4b; xfe; xd3; xc9; x64;
    x07; x3a; x0e; xe1; x72; xf3; xda; xa6; x23; x25; xaf; x02; x1a; x68;
    xf7; x07; x51; x1a ].
Definition ed_seed : list byte :=
  [ x9d; x61; xb1; x9d; xef; xfd; x5a; x60; xba; x84; x4a; xf4; x92; xec;
    x2c; xc4; x44; x49; xc5; x69; x7b; x32; x69; x19; x70; x3b; xac; x03;
    x1c; xae; x7f; x60 ].
Definition ed_priv : ed25519.PrivateKey := ed_seed ++ ed_pub.

Definition dsa_pub : dsa.PublicKey :=
  dsa.mkPublicKey (dsa.mkParameters 283 47 60) 158.
Definition dsa_priv : dsa.PrivateKey := dsa.mkPrivateKey dsa_pub 24.

(** Stand-ins for the decoding collaborators, with which the parsers can
    be run. A block is an input that starts with a dash; its payload is
    what follows. The first payload byte tells what the payload holds:
    [K] a bare Ed25519 public key, [D] a bare DSA public key, [C] a
    certificate of an Ed25519 key, [U] a certificate whose key algorithm
    is unknown, [R] an RSA private key, [E] an EC private key. *)
Definition pem_Decode (data : list byte) : option pem.Block * list byte :=
  match data with
  | x2d :: payload => (Some (pem.mkBlock "" [] payload), [])
  | _ => (None, data)
  end.

Definition x509_ParsePKIXPublicKey (der : list byte) : result any :=
  match der with
  | x4b :: raw => Ok (val_ed25519_PublicKey raw)
  | x44 :: _ => Ok (ptr_dsa_PublicKey dsa_pub)
  | _ => Err (errors.New "x509: failed to parse public key")
  end.

Definition x509_ParseCertificate (der : list byte)
  : result x509.Certificate :=
  match der with
  | x43 :: raw => Ok (x509.mkCertificate der (val_ed25519_PublicKey raw))
  | x55 :: _ => Ok (x509.mkCertificate der nil_interface)
  | _ => Err (errors.New "x509: malformed certificate")
  end.

Definition x509_ParsePKCS1PrivateKey (der : list byte)
  : result rsa.PrivateKey :=
  match der with
  | x52 :: _ => Ok rsa_priv_2048
  | _ => Err (errors.New "x509: failed to parse private key")
  end.

Definition x509_ParseECPrivateKey (der : list byte)
  : result ecdsa.PrivateKey :=
  match der with
  | x45 :: _ => Ok ec_priv
  | _ => Err (errors.New "x509: failed to parse EC private key")
  end.

Definition ParseRSA : string -> result rsa.PrivateKey :=
  certutil.ParseRSA pem_Decode x509_ParsePKCS1PrivateKey.
Definition ParseECDSA : string -> result ecdsa.PrivateKey :=
  certutil.ParseECDSA pem_Decode x509_ParseECPrivateKey.
Definition ParseX509 : string -> result x509.Certificate :=
  certutil.ParseX509 pem_Decode x509_ParseCertificate.
Definition ParsePublicKey : string -> result any :=
  certutil.ParsePublicKey
    pem_Decode x509_ParseCertificate x509_ParsePKIXPublicKey.
End testdata.

(** More test data: a decoder that gives its blocks a type and leaves the
    data after the block, and a curve that differs from P-256 in its name
    only. *)
Module testdata_labelled.
(** A dash opens a block of type CERTIFICATE, a plus sign a block of type
    RSA PRIVATE KEY; the payload is the next byte and the rest is left. *)
Definition pem_Decode (data : list byte) : option pem.Block * list byte :=
  match data with
  | x2d :: b :: rest => (Some (pem.mkBlock "CERTIFICATE" [] [b]), rest)
  | x2b :: b :: rest => (Some (pem.mkBlock "RSA PRIVATE KEY" [] [b]), rest)
  | _ => (None, data)
  end.

Definition prime256v1 : elliptic.Curve :=
  elliptic.mkCurve
    (elliptic.mkCurveParams
       (elliptic.P elliptic.p256Params) (elliptic.N elliptic.p256Params)
       (elliptic.B elliptic.p256Params) (elliptic.Gx elliptic.p256Params)
       (elliptic.Gy elliptic.p256Params) 256 "prime256v1").

Definition ec_pub_renamed : ecdsa.PublicKey :=
  ecdsa.mkPublicKey prime256v1
    (ecdsa.X testdata.ec_pub) (ecdsa.Y testdata.ec_pub).

(** A modulus of 2047 bits. *)
Definition rsa_pub_2047 : rsa.PublicKey :=
  rsa.mkPublicKey (2 ^ 2046 + 2 ^ 1024 + 1) 65537.
End testdata_labelled.

(** ** KeySize on values that may hold nil

    The model above has no nil pointer. This one has: a pointer that an
    interface holds may be nil, and so may every [*big.Int] field, the
    [elliptic.Curve] interface of an EC key and the [*CurveParams] that its
    [Params()] returns. A nil dereference is a run-time panic. *)

Module nilable.
Inductive outcome (A : Type) : Type :=
| Return (a : A)
| Panic.
Arguments Return {A} a.
Arguments Panic {A}.

Definition bind {A B : Type} (c : outcome A) (k : A -> outcome B)
  : outcome B :=
  match c with
  | Return a => k a
  | Panic => Panic
  end.

(** A pointer; [None] is nil. *)
Definition ptr (A : Type) : Type := option A.

(** [p.f] and [*p]: a panic when [p] is nil. *)
Definition deref {A : Type} (p : ptr A) : outcome A :=
  match p with
  | Some a => Return a
  | None => Panic
  end.

(** [x.BitLen()] reads [x.abs]. *)
Definition BitLen (x : ptr big.Int) : outcome Z :=
  bind (deref x) (fun x => Return (big.BitLen x)).

Record CurveParams : Type := mkCurveParams {
  P : ptr big.Int;
  N : ptr big.Int;
  B : ptr big.Int;
  Gx : ptr big.Int;
  Gy : ptr big.Int;
  BitSize : Z;
  Name : string
}.

(** An [elliptic.Curve]: the nil interface, or an implementation, seen
    through the pointer that its [Params()] returns. *)
Definition Curve : Type := option (ptr CurveParams).

Record rsa_PublicKey : Type := mk_rsa_PublicKey {
  rsa_N : ptr big.Int;
  rsa_E : Z
}.

Record rsa_PrivateKey : Type := mk_rsa_PrivateKey {
  rsa_PrivateKey_PublicKey : rsa_PublicKey;   (* embedded *)
  rsa_D : ptr big.Int;
  rsa_Primes : list (ptr big.Int)
}.

Record ecdsa_PublicKey : Type := mk_ecdsa_PublicKey {
  ecdsa_PublicKey_Curve : Curve;              (* embedded *)
  ecdsa_X : ptr big.Int;
  ecdsa_Y : ptr big.Int
}.

Record ecdsa_PrivateKey : Type := mk_ecdsa_PrivateKey {
  ecdsa_PrivateKey_PublicKey : ecdsa_PublicKey;   (* embedded *)
  ecdsa_D : ptr big.Int
}.

Record dsa_Parameters : Type := mk_dsa_Parameters {
  dsa_P : ptr big.Int;
  dsa_Q : ptr big.Int;
  dsa_G : ptr big.Int
}.

Record dsa_PublicKey : Type := mk_dsa_PublicKey {
  dsa_PublicKey_Parameters : dsa_Parameters;  (* embedded *)
  dsa_Y : ptr big.Int
}.

Record dsa_PrivateKey : Type := mk_dsa_PrivateKey {
  dsa_PrivateKey_PublicKey : dsa_PublicKey;   (* embedded *)
  dsa_X : ptr big.Int
}.

(** A value of [interface{}]; an Ed25519 key is a slice, whose nil is the
    empty one. *)
Inductive value : Type :=
| nil_interface
| ptr_rsa_PublicKey (key : ptr rsa_PublicKey)
| ptr_rsa_PrivateKey (key : ptr rsa_PrivateKey)
| ptr_ecdsa_PublicKey (key : ptr ecdsa_PublicKey)
| ptr_ecdsa_PrivateKey (key : ptr ecdsa_PrivateKey)
| val_ed25519_PublicKey (key : ed25519.PublicKey)
| val_ed25519_PrivateKey (key : ed25519.PrivateKey)
| val_dsa_PublicKey (key : dsa_PublicKey)
| val_dsa_PrivateKey (key : dsa_PrivateKey)
| ptr_dsa_PublicKey (key : ptr dsa_PublicKey)
| ptr_dsa_PrivateKey (key : ptr dsa_PrivateKey)
| other (name : string).

Definition type_of (v : value) : go_type :=
  match v with
  | nil_interface => T_nil
  | ptr_rsa_PublicKey _ => T_ptr_rsa_PublicKey
  | ptr_rsa_PrivateKey _ => T_ptr_rsa_PrivateKey
  | ptr_ecdsa_PublicKey _ => T_ptr_ecdsa_PublicKey
  | ptr_ecdsa_PrivateKey _ => T_ptr_ecdsa_PrivateKey
  | val_ed25519_PublicKey _ => T_ed25519_PublicKey
  | val_ed25519_PrivateKey _ => T_ed25519_PrivateKey
  | val_dsa_PublicKey _ => T_dsa_PublicKey
  | val_dsa_PrivateKey _ => T_dsa_PrivateKey
  | ptr_dsa_PublicKey _ => T_ptr_dsa_PublicKey
  | ptr_dsa_PrivateKey _ => T_ptr_dsa_PrivateKey
  | other name => T_other name
  end.

(** [pub.Size()], [(pub.N.BitLen() + 7) / 8]. *)
Definition rsa_Size (pub : rsa_PublicKey) : outcome Z :=
  bind (BitLen (rsa_N pub)) (fun n => Return (Z.quot (n + 7) 8)).

(** [key.Params()]: a method call on the embedded interface. *)
Definition ecdsa_Params (pub : ecdsa_PublicKey) : outcome (ptr CurveParams) :=
  deref (ecdsa_PublicKey_Curve pub).

(** KeySize returns the key size in bits for a given crypto.PrivateKey or
    crypto.PublicKey. Returns -1 it key type is unsupported. *)
Definition KeySize (key : value) : outcome Z :=
  match key with
  | ptr_rsa_PrivateKey key =>
      bind (deref key) (fun key =>
      bind (rsa_Size (rsa_PrivateKey_PublicKey key)) (fun n =>
      Return (int_mul n 8)))
  | ptr_rsa_PublicKey key =>
      bind (deref key) (fun key =>
      bind (rsa_Size key) (fun n =>
      Return (int_mul n 8)))

  | ptr_ecdsa_PrivateKey key =>
      bind (deref key) (fun key =>
      bind (ecdsa_Params (ecdsa_PrivateKey_PublicKey key)) (fun par =>
      bind (deref par) (fun par =>
      Return (BitSize par))))
  | ptr_ecdsa_PublicKey key =>
      bind (deref key) (fun key =>
      bind (ecdsa_Params key) (fun par =>
      bind (deref par) (fun par =>
      Return (BitSize par))))

  | val_ed25519_PrivateKey key => Return (int_mul (len key) 8)
  | val_ed25519_PublicKey key => Return (int_mul (len key) 8)

  | val_dsa_PrivateKey key => BitLen (dsa_Y (dsa_PrivateKey_PublicKey key))
  | val_dsa_PublicKey key => BitLen (dsa_Y key)

  | _ => Return (-1)
  end.

(** Whether a pointer or interface that [KeySize] goes through is nil. *)
Definition is_nil {A : Type} (p : ptr A) : bool :=
  match p with
  | Some _ => false
  | None => true
  end.

Definition rsa_reads_nil (pub : rsa_PublicKey) : bool := is_nil (rsa_N pub).

Definition ecdsa_reads_nil (pub : ecdsa_PublicKey) : bool :=
  match ecdsa_PublicKey_Curve pub with
  | Some (Some _) => false
  | _ => true
  end.

Definition reads_nil (key : value) : bool :=
  match key with
  | ptr_rsa_PrivateKey (Some key) =>
      rsa_reads_nil (rsa_PrivateKey_PublicKey key)
  | ptr_rsa_PublicKey (Some key) => rsa_reads_nil key
  | ptr_ecdsa_PrivateKey (Some key) =>
      ecdsa_reads_nil (ecdsa_PrivateKey_PublicKey key)
  | ptr_ecdsa_PublicKey (Some key) => ecdsa_reads_nil key
  | ptr_rsa_PrivateKey None | ptr_rsa_PublicKey None
  | ptr_ecdsa_PrivateKey None | ptr_ecdsa_PublicKey None => true
  | val_dsa_PrivateKey key => is_nil (dsa_Y (dsa_PrivateKey_PublicKey key))
  | val_dsa_PublicKey key => is_nil (dsa_Y key)
  | _ => false
  end.

(** The keys of the model above, as keys without nil. *)
Definition of_CurveParams (par : elliptic.CurveParams) : CurveParams :=
  mkCurveParams
    (Some (elliptic.P par)) (Some (elliptic.N par)) (Some (elliptic.B par))
    (Some (elliptic.Gx par)) (Some (elliptic.Gy par))
    (elliptic.BitSize par) (elliptic.Name par).

Definition of_rsa_PublicKey (pub : rsa.PublicKey) : rsa_PublicKey :=
  mk_rsa_PublicKey (Some (rsa.N pub)) (rsa.E pub).

Definition of_rsa_PrivateKey (priv : rsa.PrivateKey) : rsa_PrivateKey :=
  mk_rsa_PrivateKey (of_rsa_PublicKey (rsa.PrivateKey_PublicKey priv))
    (Some (rsa.D priv)) (map Some (rsa.Primes priv)).

Definition of_ecdsa_PublicKey (pub : ecdsa.PublicKey) : ecdsa_PublicKey :=
  mk_ecdsa_PublicKey (Some (Some (of_CurveParams (ecdsa.Params pub))))
    (Some (ecdsa.X pub)) (Some (ecdsa.Y pub)).

Definition of_ecdsa_PrivateKey (priv : ecdsa.PrivateKey) : ecdsa_PrivateKey :=
  mk_ecdsa_PrivateKey
    (of_ecdsa_PublicKey (ecdsa.PrivateKey_PublicKey priv))
    (Some (ecdsa.D priv)).

Definition of_dsa_PublicKey (pub : dsa.PublicKey) : dsa_PublicKey :=
  mk_dsa_PublicKey
    (mk_dsa_Parameters
       (Some (dsa.P (dsa.PublicKey_Parameters pub)))
       (Some (dsa.Q (dsa.PublicKey_Parameters pub)))
       (Some (dsa.G (dsa.PublicKey_Parameters pub))))
    (Some (dsa.Y pub)).

Definition of_dsa_PrivateKey (priv : dsa.PrivateKey) : dsa_PrivateKey :=
  mk_dsa_PrivateKey (of_dsa_PublicKey (dsa.PrivateKey_PublicKey priv))
    (Some (dsa.X priv)).
End nilable.

(** A value of the model without nil, among those that may hold nil. *)
Definition to_nilable (key : any) : nilable.value :=
  match key with
  | nil_interface => nilable.nil_interface
  | ptr_rsa_PublicKey key =>
      nilable.ptr_rsa_PublicKey (Some (nilable.of_rsa_PublicKey key))
  | ptr_rsa_PrivateKey key =>
      nilable.ptr_rsa_PrivateKey (Some (nilable.of_rsa_PrivateKey key))
  | ptr_ecdsa_PublicKey key =>
      nilable.ptr_ecdsa_PublicKey (Some (nilable.of_ecdsa_PublicKey key))
  | ptr_ecdsa_PrivateKey key =>
      nilable.ptr_ecdsa_PrivateKey (Some (nilable.of_ecdsa_PrivateKey key))
  | val_ed25519_PublicKey key => nilable.val_ed25519_PublicKey key
  | val_ed25519_PrivateKey key => nilable.val_ed25519_PrivateKey key
  | val_dsa_PublicKey key =>
      nilable.val_dsa_PublicKey (nilable.of_dsa_PublicKey key)
  | val_dsa_PrivateKey key =>
      nilable.val_dsa_PrivateKey (nilable.of_dsa_PrivateKey key)
  | ptr_dsa_PublicKey key =>
      nilable.ptr_dsa_PublicKey (Some (nilable.of_dsa_PublicKey key))
  | ptr_dsa_PrivateKey key =>
      nilable.ptr_dsa_PrivateKey (Some (nilable.of_dsa_PrivateKey key))
  | other name => nilable.other name
  end.

(** * Properties *)

Import certutil.

(** ** Facts about the library models *)

Lemma Cmp_eq0 (x y : big.Int) : (big.Cmp x y =? 0) = (x =? y).
Proof.
  unfold big.Cmp.
  destruct (Z.compare_spec x y) as [H|H|H];
    symmetry; [apply Z.eqb_eq | apply Z.eqb_neq | apply Z.eqb_neq];
    simpl; lia.
Qed.

Lemma Cmp_ne0 (x y : big.Int) : negb (big.Cmp x y =? 0) = true <-> x <> y.
Proof.
  rewrite Cmp_eq0, negb_true_iff. apply Z.eqb_neq.
Qed.

Lemma Z_ne_b (x y : Z) : negb (x =? y) = true <-> x <> y.
Proof.
  rewrite negb_true_iff. apply Z.eqb_neq.
Qed.

Lemma append_empty (s : string) : (s ++ "")%string = s.
Proof.
  induction s as [|c s IH]; simpl; [reflexivity | now rewrite IH].
Qed.

(** The two formats of the package, with their verbs filled in. *)
Lemma Errorf_unsupported (t : go_type) :
  fmt.Errorf "unsupported key type: %T" [t]
  = errors.New ("unsupported key type: " ++ fmt.type_name t).
Proof.
  unfold fmt.Errorf. simpl. now rewrite append_empty.
Qed.

Lemma Errorf_do_not_match (t1 t2 : go_type) :
  fmt.Errorf "key types do not match: %T and %T" [t1; t2]
  = errors.New
      ("key types do not match: " ++ fmt.type_name t1
       ++ " and " ++ fmt.type_name t2).
Proof.
  unfold fmt.Errorf. simpl. now rewrite append_empty.
Qed.

Lemma bytes_eqb_refl (x : list byte) : ed25519.bytes_eqb x x = true.
Proof.
  induction x as [|a x IH]; simpl.
  - reflexivity.
  - rewrite IH, andb_true_r. apply byte_dec_lb. reflexivity.
Qed.

Lemma bytes_eqb_eq (x y : list byte) : ed25519.bytes_eqb x y = true <-> x = y.
Proof.
  split.
  - revert y. induction x as [|a x IH]; intros [|b y] H; simpl in H;
      try discriminate; try reflexivity.
    apply andb_true_iff in H. destruct H as [Hab Hxy].
    apply byte_dec_bl in Hab. apply IH in Hxy. congruence.
  - intros <-. apply bytes_eqb_refl.
Qed.

Lemma int_wrap_id (z : Z) : min_int <= z <= max_int -> int_wrap z = z.
Proof.
  unfold int_wrap, min_int, max_int. intros H.
  rewrite Z.mod_small by lia. lia.
Qed.

Lemma BitLen_nonneg (x : big.Int) : 0 <= big.BitLen x.
Proof.
  unfold big.BitLen. destruct (x =? 0).
  - lia.
  - pose proof (Z.log2_nonneg (Z.abs x)). lia.
Qed.

(** A positive integer between 2^(n-1) and 2^n has n bits. *)
Lemma BitLen_unique (x : big.Int) (n : Z) :
  0 < n -> 2 ^ (n - 1) <= x < 2 ^ n -> big.BitLen x = n.
Proof.
  intros Hn Hx.
  assert (Hpos : 0 < x).
  { pose proof (Z.pow_pos_nonneg 2 (n - 1)). lia. }
  unfold big.BitLen.
  destruct (Z.eqb_spec x 0) as [->|_]; [lia|].
  rewrite Z.abs_eq by lia.
  rewrite (Z.log2_unique x (n - 1)); [lia | lia |].
  replace (Z.succ (n - 1)) with n by lia. exact Hx.
Qed.

Lemma Size_nonneg (pub : rsa.PublicKey) : 0 <= rsa.Size pub.
Proof.
  unfold rsa.Size. pose proof (BitLen_nonneg (rsa.N pub)).
  apply Z.quot_pos; lia.
Qed.

(** ** ComparePublicKeys *)

(** What the RSA clause returns, as a proposition. *)
Lemma ComparePublicKeys_rsa_value (a b : rsa.PublicKey) :
  ComparePublicKeys (ptr_rsa_PublicKey a) (ptr_rsa_PublicKey b)
  = (negb ((rsa.N a =? rsa.N b) && (rsa.E a =? rsa.E b)), None).
Proof.
  simpl. rewrite Cmp_eq0, negb_andb. reflexivity.
Qed.

(** What the EC clause returns once the two points are the same. *)
Lemma ComparePublicKeys_ecdsa_same_point (a b : ecdsa.PublicKey) :
  ecdsa.X a = ecdsa.X b -> ecdsa.Y a = ecdsa.Y b ->
  forall r, ComparePublicKeys (ptr_ecdsa_PublicKey a) (ptr_ecdsa_PublicKey b)
            = (r, None) ->
  (r = true <-> ~ same_domain_parameters (ecdsa.Params a) (ecdsa.Params b)).
Proof.
  intros HX HY r. simpl. rewrite !Cmp_eq0, HX, HY, !Z.eqb_refl. simpl.
  intros [= <-]. unfold same_domain_parameters.
  rewrite !orb_true_iff, !Z_ne_b. lia.
Qed.

Lemma ComparePublicKeys_ecdsa_other_point (a b : ecdsa.PublicKey) :
  ecdsa.X a <> ecdsa.X b \/ ecdsa.Y a <> ecdsa.Y b ->
  ComparePublicKeys (ptr_ecdsa_PublicKey a) (ptr_ecdsa_PublicKey b)
  = (false, None).
Proof.
  intros H. simpl. rewrite !Cmp_eq0.
  replace (negb (ecdsa.X a =? ecdsa.X b) || negb (ecdsa.Y a =? ecdsa.Y b))
    with true; [reflexivity|].
  symmetry. rewrite orb_true_iff, !Z_ne_b. exact H.
Qed.

Lemma ComparePublicKeys_ecdsa_no_error (a b : ecdsa.PublicKey) :
  snd (ComparePublicKeys (ptr_ecdsa_PublicKey a) (ptr_ecdsa_PublicKey b))
  = None.
Proof.
  simpl.
  destruct (negb (big.Cmp (ecdsa.X a) (ecdsa.X b) =? 0)
            || negb (big.Cmp (ecdsa.Y a) (ecdsa.Y b) =? 0)); reflexivity.
Qed.

(** C1. [ComparePublicKeys(k, k)] should be true for every RSA, EC and
    Ed25519 key. The code gives true for Ed25519 only: an RSA key and an EC
    key each compare not-equal (false, no error) with themselves. *)
Theorem ComparePublicKeys_same_key :
  (forall k : rsa.PublicKey,
      ComparePublicKeys (ptr_rsa_PublicKey k) (ptr_rsa_PublicKey k)
      = (false, None)) /\
  (forall k : ecdsa.PublicKey,
      ComparePublicKeys (ptr_ecdsa_PublicKey k) (ptr_ecdsa_PublicKey k)
      = (false, None)) /\
  (forall k : ed25519.PublicKey,
      ComparePublicKeys (val_ed25519_PublicKey k) (val_ed25519_PublicKey k)
      = (true, None)).
Proof.
  repeat split; intros k.
  - rewrite ComparePublicKeys_rsa_value, !Z.eqb_refl. reflexivity.
  - simpl. rewrite !Cmp_eq0, !Z.eqb_refl. reflexivity.
  - simpl. unfold ed25519.Equal. rewrite bytes_eqb_refl. reflexivity.
Qed.

(** C2. Two RSA keys should compare equal iff modulus and exponent are
    equal. The code returns the opposite boolean: its result is true
    exactly when the moduli differ or the exponents differ (and there is
    never an error). *)
Theorem ComparePublicKeys_rsa (a b : rsa.PublicKey) :
  snd (ComparePublicKeys (ptr_rsa_PublicKey a) (ptr_rsa_PublicKey b)) = None /\
  (fst (ComparePublicKeys (ptr_rsa_PublicKey a) (ptr_rsa_PublicKey b)) = true
   <-> ~ (rsa.N a = rsa.N b /\ rsa.E a = rsa.E b)).
Proof.
  rewrite ComparePublicKeys_rsa_value. simpl. split; [reflexivity|].
  rewrite negb_true_iff, andb_false_iff, !Z.eqb_neq. lia.
Qed.

(** C3. Two EC keys should compare equal iff the points and the six curve
    parameters are equal. The code never reports an error and answers
    true exactly when the points are equal and some curve parameter
    differs; so equal keys compare not-equal, and equal points on curves
    that differ compare equal. Only keys with different points get the
    answer the claim asks for. *)
Theorem ComparePublicKeys_ecdsa (a b : ecdsa.PublicKey) :
  snd (ComparePublicKeys (ptr_ecdsa_PublicKey a) (ptr_ecdsa_PublicKey b))
  = None /\
  (fst (ComparePublicKeys (ptr_ecdsa_PublicKey a) (ptr_ecdsa_PublicKey b))
   = true
   <-> ecdsa.X a = ecdsa.X b /\ ecdsa.Y a = ecdsa.Y b /\
       ~ same_domain_parameters (ecdsa.Params a) (ecdsa.Params b)).
Proof.
  split; [apply ComparePublicKeys_ecdsa_no_error|].
  destruct (Z.eq_dec (ecdsa.X a) (ecdsa.X b)) as [HX|HX];
    [destruct (Z.eq_dec (ecdsa.Y a) (ecdsa.Y b)) as [HY|HY]|].
  - pose proof (ComparePublicKeys_ecdsa_no_error a b) as Hn.
    pose proof (ComparePublicKeys_ecdsa_same_point a b HX HY) as Hs.
    destruct (ComparePublicKeys (ptr_ecdsa_PublicKey a) (ptr_ecdsa_PublicKey b))
      as [r e]. simpl in Hn. subst e. simpl.
    rewrite (Hs r eq_refl). tauto.
  - rewrite ComparePublicKeys_ecdsa_other_point by (right; exact HY).
    simpl. split; [discriminate | tauto].
  - rewrite ComparePublicKeys_ecdsa_other_point by (left; exact HX).
    simpl. split; [discriminate | tauto].
Qed.

(** C4. Keys of two different families should be refused with an error
    that carries both type names. The code does refuse them (the error is
    never nil), but its text carries the type name of the first key twice:
    the failed assertion has replaced the second key by a nil value of the
    first key's type before the text is made. *)
Theorem ComparePublicKeys_families_differ (a b : any) (fa fb : family) :
  family_of a = Some fa -> family_of b = Some fb -> fa <> fb ->
  ComparePublicKeys a b
  = (false,
     Some (errors.New
             ("key types do not match: " ++ fmt.type_name (type_of a)
              ++ " and " ++ fmt.type_name (type_of a)))) /\
  fmt.type_name (type_of a) <> fmt.type_name (type_of b).
Proof.
  intros Ha Hb Hne. rewrite <- Errorf_do_not_match.
  destruct a; try discriminate Ha; destruct b; try discriminate Hb;
    injection Ha as <-; injection Hb as <-; try congruence;
    (split; [reflexivity | discriminate]).
Qed.

Lemma ComparePublicKeys_families_differ_witness :
  ComparePublicKeys (ptr_rsa_PublicKey testdata.rsa_pub)
                    (ptr_ecdsa_PublicKey testdata.ec_pub)
  = (false,
     Some (errors.New
             "key types do not match: *rsa.PublicKey and *rsa.PublicKey")) /\
  "*rsa.PublicKey"%string <> "*ecdsa.PublicKey"%string.
Proof.
  apply (ComparePublicKeys_families_differ
           (ptr_rsa_PublicKey testdata.rsa_pub)
           (ptr_ecdsa_PublicKey testdata.ec_pub) RSA EC);
    [reflexivity | reflexivity | discriminate].
Defined.

Example ComparePublicKeys_rsa_pub_itself :
  ComparePublicKeys (ptr_rsa_PublicKey testdata.rsa_pub)
                    (ptr_rsa_PublicKey testdata.rsa_pub) = (false, None)
  /\ ComparePublicKeys (ptr_rsa_PublicKey testdata.rsa_pub)
                       (ptr_rsa_PublicKey testdata.rsa_pub_other_exponent)
     = (true, None).
Proof. split; reflexivity. Qed.

Example ComparePublicKeys_ec_pub_itself :
  ComparePublicKeys (ptr_ecdsa_PublicKey testdata.ec_pub)
                    (ptr_ecdsa_PublicKey testdata.ec_pub) = (false, None)
  /\ ComparePublicKeys (ptr_ecdsa_PublicKey testdata.ec_pub)
                       (ptr_ecdsa_PublicKey testdata.ec_pub_other_curve)
     = (true, None)
  /\ ComparePublicKeys (ptr_ecdsa_PublicKey testdata.ec_pub)
                       (ptr_ecdsa_PublicKey testdata.ec_pub_2)
     = (false, None).
Proof. repeat split; vm_compute; reflexivity. Qed.

(** A key that none of the three clauses names is refused whatever the
    second key is. *)
Lemma ComparePublicKeys_unsupported (key1 key2 : any) :
  family_of key1 = None ->
  ComparePublicKeys key1 key2
  = (false,
     Some (errors.New
             ("unsupported key type: " ++ fmt.type_name (type_of key1)))).
Proof.
  intros H. rewrite <- Errorf_unsupported.
  destruct key1; try discriminate H; reflexivity.
Qed.

(** ** The parsers *)

Section ParserProperties.
Variable pem_Decode : list byte -> option pem.Block * list byte.
Variable x509_ParsePKCS1PrivateKey : list byte -> result rsa.PrivateKey.
Variable x509_ParseECPrivateKey : list byte -> result ecdsa.PrivateKey.
Variable x509_ParseCertificate : list byte -> result x509.Certificate.
Variable x509_ParsePKIXPublicKey : list byte -> result any.

Let ParseRSA := certutil.ParseRSA pem_Decode x509_ParsePKCS1PrivateKey.
Let ParseECDSA := certutil.ParseECDSA pem_Decode x509_ParseECPrivateKey.
Let ParseX509 := certutil.ParseX509 pem_Decode x509_ParseCertificate.
Let ParsePublicKey :=
  certutil.ParsePublicKey
    pem_Decode x509_ParseCertificate x509_ParsePKIXPublicKey.

(** The switch lets the three families through and nothing else. *)
Lemma switch_rawKey_family (rawKey : any) :
  match family_of rawKey with
  | Some _ => switch_rawKey rawKey = Ok rawKey
  | None =>
      switch_rawKey rawKey
      = Err (errors.New
               ("unsupported key type: " ++ fmt.type_name (type_of rawKey)))
  end.
Proof.
  rewrite <- Errorf_unsupported. destruct rawKey; reflexivity.
Qed.

(** With a block at hand, [ParsePublicKey] is the switch applied to the
    key of the first decoder that succeeds. *)
Lemma ParsePublicKey_block (s : string) (block : pem.Block)
      (rest : list byte) :
  pem_Decode (bytes_of_string s) = (Some block, rest) ->
  ParsePublicKey s
  = match x509_ParsePKIXPublicKey (pem.Bytes block) with
    | Ok rawKey => switch_rawKey rawKey
    | Err _ =>
        match x509_ParseCertificate (pem.Bytes block) with
        | Err err => Err err
        | Ok cert => switch_rawKey (x509.PublicKey cert)
        end
    end.
Proof.
  intros H. unfold ParsePublicKey, certutil.ParsePublicKey.
  rewrite H. reflexivity.
Qed.

(** C5. [ParsePublicKey] first decodes the payload as a
    SubjectPublicKeyInfo; when that fails it decodes the same payload as
    a certificate and goes on with the certificate's public key (which is
    returned when it is of a supported family); when both fail the error
    is the certificate decoder's. *)
Theorem ParsePublicKey_fallback (s : string) (block : pem.Block)
        (rest : list byte) :
  pem_Decode (bytes_of_string s) = (Some block, rest) ->
  (forall rawKey,
      x509_ParsePKIXPublicKey (pem.Bytes block) = Ok rawKey ->
      ParsePublicKey s = switch_rawKey rawKey) /\
  (forall err1 cert,
      x509_ParsePKIXPublicKey (pem.Bytes block) = Err err1 ->
      x509_ParseCertificate (pem.Bytes block) = Ok cert ->
      ParsePublicKey s = switch_rawKey (x509.PublicKey cert) /\
      (family_of (x509.PublicKey cert) <> None ->
       ParsePublicKey s = Ok (x509.PublicKey cert))) /\
  (forall err1 err2,
      x509_ParsePKIXPublicKey (pem.Bytes block) = Err err1 ->
      x509_ParseCertificate (pem.Bytes block) = Err err2 ->
      ParsePublicKey s = Err err2).
Proof.
  intros Hblock. rewrite (ParsePublicKey_block s block rest Hblock).
  split; [|split].
  - intros rawKey ->. reflexivity.
  - intros err1 cert -> ->. split; [reflexivity|].
    intros Hfam.
    pose proof (switch_rawKey_family (x509.PublicKey cert)) as Hsw.
    destruct (family_of (x509.PublicKey cert)); [exact Hsw | congruence].
  - intros err1 err2 -> ->. reflexivity.
Qed.

(** C6. Whichever decoder gave the key, [ParsePublicKey] returns it only
    when it is an RSA, EC or Ed25519 public key; for a key of any other
    type the result is an error whose text ends with the name of that
    type. *)
Theorem ParsePublicKey_switch (s : string) (block : pem.Block)
        (rest : list byte) (rawKey : any) :
  pem_Decode (bytes_of_string s) = (Some block, rest) ->
  x509_ParsePKIXPublicKey (pem.Bytes block) = Ok rawKey \/
  (exists err1 cert,
      x509_ParsePKIXPublicKey (pem.Bytes block) = Err err1 /\
      x509_ParseCertificate (pem.Bytes block) = Ok cert /\
      x509.PublicKey cert = rawKey) ->
  match family_of rawKey with
  | Some _ => ParsePublicKey s = Ok rawKey
  | None =>
      ParsePublicKey s
      = Err (errors.New
               ("unsupported key type: " ++ fmt.type_name (type_of rawKey)))
  end.
Proof.
  intros Hblock Hkey.
  assert (Hsw : ParsePublicKey s = switch_rawKey rawKey).
  { rewrite (ParsePublicKey_block s block rest Hblock).
    destruct Hkey as [-> | (err1 & cert & -> & -> & <-)]; reflexivity. }
  rewrite Hsw. apply switch_rawKey_family.
Qed.

(** C9. On an input in which [pem.Decode] finds no block, each of the
    four parsers fails with its no-block error, and no decoder is
    consulted. *)
Theorem parsers_without_block (s : string) :
  fst (pem_Decode (bytes_of_string s)) = None ->
  ParseRSA s = Err (errors.New "invalid PEM") /\
  ParseECDSA s = Err (errors.New "invalid PEM") /\
  ParseX509 s = Err (errors.New "invalid PEM") /\
  ParsePublicKey s
  = Err (errors.New "data does not contain any valid public keys").
Proof.
  intros H.
  unfold ParseRSA, ParseECDSA, ParseX509, ParsePublicKey,
    certutil.ParseRSA, certutil.ParseECDSA, certutil.ParseX509,
    certutil.ParsePublicKey.
  destruct (pem_Decode (bytes_of_string s)) as [block rest].
  simpl in H. subst block. repeat split.
Qed.
End ParserProperties.

Lemma ParsePublicKey_fallback_witness :
  testdata.ParsePublicKey "-Cab" = Ok (val_ed25519_PublicKey [x61; x62]) /\
  testdata.ParsePublicKey "-x"
  = Err (errors.New "x509: malformed certificate").
Proof.
  split.
  - destruct (ParsePublicKey_fallback
                testdata.pem_Decode testdata.x509_ParseCertificate
                testdata.x509_ParsePKIXPublicKey "-Cab"
                (pem.mkBlock "" [] [x43; x61; x62]) [] eq_refl)
      as (_ & Hcert & _).
    destruct (Hcert (errors.New "x509: failed to parse public key")
                (x509.mkCertificate [x43; x61; x62]
                   (val_ed25519_PublicKey [x61; x62]))
                eq_refl eq_refl) as (_ & Hkey).
    apply Hkey. discriminate.
  - destruct (ParsePublicKey_fallback
                testdata.pem_Decode testdata.x509_ParseCertificate
                testdata.x509_ParsePKIXPublicKey "-x"
                (pem.mkBlock "" [] [x78]) [] eq_refl)
      as (_ & _ & Hboth).
    exact (Hboth (errors.New "x509: failed to parse public key")
             (errors.New "x509: malformed certificate") eq_refl eq_refl).
Defined.

Lemma ParsePublicKey_switch_witness :
  testdata.ParsePublicKey "-D"
  = Err (errors.New "unsupported key type: *dsa.PublicKey") /\
  testdata.ParsePublicKey "-Kab" = Ok (val_ed25519_PublicKey [x61; x62]).
Proof.
  split.
  - apply (ParsePublicKey_switch
             testdata.pem_Decode testdata.x509_ParseCertificate
             testdata.x509_ParsePKIXPublicKey "-D"
             (pem.mkBlock "" [] [x44]) [] (ptr_dsa_PublicKey testdata.dsa_pub)
             eq_refl).
    left. reflexivity.
  - apply (ParsePublicKey_switch
             testdata.pem_Decode testdata.x509_ParseCertificate
             testdata.x509_ParsePKIXPublicKey "-Kab"
             (pem.mkBlock "" [] [x4b; x61; x62]) []
             (val_ed25519_PublicKey [x61; x62]) eq_refl).
    left. reflexivity.
Defined.

Lemma parsers_without_block_witness :
  testdata.ParseRSA "not a pem" = Err (errors.New "invalid PEM") /\
  testdata.ParseECDSA "not a pem" = Err (errors.New "invalid PEM") /\
  testdata.ParseX509 "not a pem" = Err (errors.New "invalid PEM") /\
  testdata.ParsePublicKey "not a pem"
  = Err (errors.New "data does not contain any valid public keys").
Proof.
  apply (parsers_without_block
           testdata.pem_Decode testdata.x509_ParsePKCS1PrivateKey
           testdata.x509_ParseECPrivateKey testdata.x509_ParseCertificate
           testdata.x509_ParsePKIXPublicKey "not a pem").
  reflexivity.
Defined.

(** ** KeySize *)

(** The RSA clauses: eight times the modulus size in bytes. *)
Lemma KeySize_rsa (pub : rsa.PublicKey) :
  rsa.Size pub * 8 <= max_int ->
  KeySize (ptr_rsa_PublicKey pub) = rsa.Size pub * 8.
Proof.
  intros H. unfold KeySize, int_mul. apply int_wrap_id.
  pose proof (Size_nonneg pub). unfold min_int. lia.
Qed.

Lemma Size_2048 (pub : rsa.PublicKey) :
  2 ^ 2047 <= rsa.N pub < 2 ^ 2048 -> rsa.Size pub = 256.
Proof.
  intros H. unfold rsa.Size.
  rewrite (BitLen_unique (rsa.N pub) 2048); [reflexivity | lia | exact H].
Qed.

(** The model with nil gives, on a key without nil, what [KeySize] gives. *)
Lemma KeySize_to_nilable (key : any) :
  nilable.KeySize (to_nilable key) = nilable.Return (KeySize key).
Proof.
  destruct key; reflexivity.
Qed.

(** The RSA and EC arms of the model with nil. *)
Lemma nilable_KeySize_rsa (pub : nilable.rsa_PublicKey) (m n : Z) :
  nilable.rsa_N pub = Some m ->
  0 < n -> 2 ^ (n - 1) <= m < 2 ^ n -> n + 7 <= max_int ->
  nilable.KeySize (nilable.ptr_rsa_PublicKey (Some pub))
  = nilable.Return (8 * ((n + 7) / 8)).
Proof.
  intros HN Hn Hm Hfit.
  cbn [nilable.KeySize nilable.bind nilable.deref].
  unfold nilable.rsa_Size, nilable.BitLen.
  rewrite HN.
  cbn [nilable.bind nilable.deref].
  rewrite (BitLen_unique m n Hn Hm).
  rewrite Z.quot_div_nonneg by lia.
  pose proof (Z.div_mod (n + 7) 8) as Hdm.
  pose proof (Z.mod_pos_bound (n + 7) 8) as Hmod.
  unfold int_mul. rewrite int_wrap_id by (unfold min_int; lia).
  f_equal. lia.
Qed.

Lemma nilable_KeySize_ecdsa (pub : nilable.ecdsa_PublicKey)
      (par : nilable.CurveParams) :
  nilable.ecdsa_PublicKey_Curve pub = Some (Some par) ->
  nilable.KeySize (nilable.ptr_ecdsa_PublicKey (Some pub))
  = nilable.Return (nilable.BitSize par).
Proof.
  intros HC.
  cbn [nilable.KeySize nilable.bind nilable.deref].
  unfold nilable.ecdsa_Params. rewrite HC. reflexivity.
Qed.

(** A private key is sized through the public key embedded in it. *)
Lemma nilable_KeySize_private (rsa_priv : nilable.rsa_PrivateKey)
      (ec_priv : nilable.ecdsa_PrivateKey) :
  nilable.KeySize (nilable.ptr_rsa_PrivateKey (Some rsa_priv))
  = nilable.KeySize
      (nilable.ptr_rsa_PublicKey
         (Some (nilable.rsa_PrivateKey_PublicKey rsa_priv))) /\
  nilable.KeySize (nilable.ptr_ecdsa_PrivateKey (Some ec_priv))
  = nilable.KeySize
      (nilable.ptr_ecdsa_PublicKey
         (Some (nilable.ecdsa_PrivateKey_PublicKey ec_priv))).
Proof.
  split; reflexivity.
Qed.

(** [KeySize] does not return on a nil [*rsa.PublicKey], on an RSA key
    without modulus ([&rsa.PublicKey{}]), on an EC key without curve, nor
    on a DSA key without Y: each is a nil dereference. *)
Lemma KeySize_panics_on_nil :
  nilable.KeySize (nilable.ptr_rsa_PublicKey None) = nilable.Panic /\
  nilable.KeySize
    (nilable.ptr_rsa_PublicKey (Some (nilable.mk_rsa_PublicKey None 0)))
  = nilable.Panic /\
  nilable.KeySize
    (nilable.ptr_ecdsa_PublicKey
       (Some (nilable.mk_ecdsa_PublicKey None None None)))
  = nilable.Panic /\
  nilable.KeySize
    (nilable.val_dsa_PublicKey
       (nilable.mk_dsa_PublicKey
          (nilable.mk_dsa_Parameters None None None) None))
  = nilable.Panic.
Proof.
  repeat split.
Qed.

(** C7 (amended). [KeySize] returns an integer on every input in which
    nothing that it dereferences is nil, and panics on the others. For an
    RSA key, public or private, the integer is eight times the size of the
    modulus in bytes: 8 * ((n + 7) / 8) for a modulus of n bits, so 2048
    for 2048 bits. For an EC key it is the bit size that the curve
    declares, so 256 on P-256. For a value of a type that no case names,
    a nil pointer included, it is -1. *)
Theorem KeySize_returns :
  (forall key : nilable.value,
      nilable.reads_nil key = false ->
      exists n : Z, nilable.KeySize key = nilable.Return n) /\
  (forall key : nilable.value,
      nilable.reads_nil key = true -> nilable.KeySize key = nilable.Panic) /\
  (forall key : any,
      nilable.reads_nil (to_nilable key) = false /\
      nilable.KeySize (to_nilable key) = nilable.Return (KeySize key)) /\
  (forall (priv : nilable.rsa_PrivateKey) (m n : Z),
      nilable.rsa_N (nilable.rsa_PrivateKey_PublicKey priv) = Some m ->
      0 < n -> 2 ^ (n - 1) <= m < 2 ^ n -> n + 7 <= max_int ->
      nilable.KeySize
        (nilable.ptr_rsa_PublicKey
           (Some (nilable.rsa_PrivateKey_PublicKey priv)))
      = nilable.Return (8 * ((n + 7) / 8)) /\
      nilable.KeySize (nilable.ptr_rsa_PrivateKey (Some priv))
      = nilable.Return (8 * ((n + 7) / 8))) /\
  (forall (priv : nilable.rsa_PrivateKey) (m : Z),
      nilable.rsa_N (nilable.rsa_PrivateKey_PublicKey priv) = Some m ->
      2 ^ 2047 <= m < 2 ^ 2048 ->
      nilable.KeySize
        (nilable.ptr_rsa_PublicKey
           (Some (nilable.rsa_PrivateKey_PublicKey priv)))
      = nilable.Return 2048 /\
      nilable.KeySize (nilable.ptr_rsa_PrivateKey (Some priv))
      = nilable.Return 2048) /\
  (forall (priv : nilable.ecdsa_PrivateKey) (par : nilable.CurveParams),
      nilable.ecdsa_PublicKey_Curve (nilable.ecdsa_PrivateKey_PublicKey priv)
      = Some (Some par) ->
      nilable.KeySize
        (nilable.ptr_ecdsa_PublicKey
           (Some (nilable.ecdsa_PrivateKey_PublicKey priv)))
      = nilable.Return (nilable.BitSize par) /\
      nilable.KeySize (nilable.ptr_ecdsa_PrivateKey (Some priv))
      = nilable.Return (nilable.BitSize par)) /\
  (forall priv : nilable.ecdsa_PrivateKey,
      nilable.ecdsa_PublicKey_Curve (nilable.ecdsa_PrivateKey_PublicKey priv)
      = Some (Some (nilable.of_CurveParams elliptic.p256Params)) ->
      nilable.KeySize
        (nilable.ptr_ecdsa_PublicKey
           (Some (nilable.ecdsa_PrivateKey_PublicKey priv)))
      = nilable.Return 256 /\
      nilable.KeySize (nilable.ptr_ecdsa_PrivateKey (Some priv))
      = nilable.Return 256) /\
  (forall key : nilable.value,
      ~ In (nilable.type_of key) KeySize_types ->
      nilable.KeySize key = nilable.Return (-1)).
Proof.
  split; [|split; [|split; [|split; [|split; [|split; [|split]]]]]].
  - intros key H.
    destruct key as [|[k|]|[k|]|[k|]|[k|]|k|k|k|k|k|k|name];
      simpl in H; try discriminate H; try (eexists; reflexivity).
    + unfold nilable.rsa_reads_nil in H.
      destruct k as [[m|] e]; [|discriminate H]. eexists; reflexivity.
    + unfold nilable.rsa_reads_nil in H.
      destruct k as [[[m|] e] d ps]; [|discriminate H]. eexists; reflexivity.
    + unfold nilable.ecdsa_reads_nil in H.
      destruct k as [[[par|]|] x y]; try discriminate H. eexists; reflexivity.
    + unfold nilable.ecdsa_reads_nil in H.
      destruct k as [[[[par|]|] x y] d]; try discriminate H.
      eexists; reflexivity.
    + destruct k as [pars [y|]]; [|discriminate H]. eexists; reflexivity.
    + destruct k as [[pars [y|]] x]; [|discriminate H]. eexists; reflexivity.
  - intros key H.
    destruct key as [|[k|]|[k|]|[k|]|[k|]|k|k|k|k|k|k|name];
      simpl in H; try discriminate H; try reflexivity.
    + unfold nilable.rsa_reads_nil in H.
      destruct k as [[m|] e]; [discriminate H|]. reflexivity.
    + unfold nilable.rsa_reads_nil in H.
      destruct k as [[[m|] e] d ps]; [discriminate H|]. reflexivity.
    + unfold nilable.ecdsa_reads_nil in H.
      destruct k as [[[par|]|] x y]; try discriminate H; reflexivity.
    + unfold nilable.ecdsa_reads_nil in H.
      destruct k as [[[[par|]|] x y] d]; try discriminate H; reflexivity.
    + destruct k as [pars [y|]]; [discriminate H|]. reflexivity.
    + destruct k as [[pars [y|]] x]; [discriminate H|]. reflexivity.
  - intros key. split; [destruct key; reflexivity|].
    apply KeySize_to_nilable.
  - intros priv m n HN Hn Hm Hfit.
    rewrite (proj1 (nilable_KeySize_private priv
                      (nilable.mk_ecdsa_PrivateKey
                         (nilable.mk_ecdsa_PublicKey None None None) None))).
    rewrite (nilable_KeySize_rsa _ m n HN Hn Hm Hfit). split; reflexivity.
  - intros priv m HN Hm.
    rewrite (proj1 (nilable_KeySize_private priv
                      (nilable.mk_ecdsa_PrivateKey
                         (nilable.mk_ecdsa_PublicKey None None None) None))).
    rewrite (nilable_KeySize_rsa _ m 2048 HN); [split; reflexivity | lia | exact Hm|].
    unfold max_int. lia.
  - intros priv par HC.
    rewrite (proj2 (nilable_KeySize_private
                      (nilable.mk_rsa_PrivateKey
                         (nilable.mk_rsa_PublicKey None 0) None [])
                      priv)).
    rewrite (nilable_KeySize_ecdsa _ par HC). split; reflexivity.
  - intros priv HC.
    rewrite (proj2 (nilable_KeySize_private
                      (nilable.mk_rsa_PrivateKey
                         (nilable.mk_rsa_PublicKey None 0) None [])
                      priv)).
    rewrite (nilable_KeySize_ecdsa _ _ HC). split; reflexivity.
  - intros key H.
    destruct key; try reflexivity; exfalso; apply H; simpl; tauto.
Qed.

Lemma KeySize_returns_witness :
  nilable.KeySize
    (to_nilable (ptr_rsa_PublicKey testdata.rsa_pub_2048))
  = nilable.Return 2048 /\
  nilable.KeySize
    (to_nilable (ptr_rsa_PrivateKey testdata.rsa_priv_2048))
  = nilable.Return 2048 /\
  nilable.KeySize (to_nilable (ptr_rsa_PublicKey testdata.rsa_pub))
  = nilable.Return 16 /\
  nilable.KeySize (to_nilable (ptr_ecdsa_PublicKey testdata.ec_pub))
  = nilable.Return 256 /\
  nilable.KeySize (to_nilable (ptr_ecdsa_PrivateKey testdata.ec_priv))
  = nilable.Return 256 /\
  nilable.KeySize
    (to_nilable (ptr_ecdsa_PublicKey testdata.ec_pub_other_curve))
  = nilable.Return 255 /\
  nilable.KeySize (nilable.ptr_dsa_PublicKey None) = nilable.Return (-1) /\
  (exists n : Z,
      nilable.KeySize (to_nilable (ptr_rsa_PublicKey testdata.rsa_pub))
      = nilable.Return n) /\
  nilable.KeySize (nilable.ptr_rsa_PrivateKey None) = nilable.Panic.
Proof.
  destruct KeySize_returns
    as (Hret & Hpanic & _ & Hrsa & H2048 & Hec & Hp256 & Hother).
  assert (Hbits : 2 ^ 2047 <= rsa.N testdata.rsa_pub_2048 < 2 ^ 2048).
  { split; [vm_compute; discriminate | vm_compute; reflexivity]. }
  assert (Hbits12 : 2 ^ (12 - 1) <= rsa.N testdata.rsa_pub < 2 ^ 12).
  { split; [vm_compute; discriminate | vm_compute; reflexivity]. }
  assert (Hfit12 : 12 + 7 <= max_int).
  { vm_compute. discriminate. }
  split; [exact (proj1 (H2048 (nilable.of_rsa_PrivateKey testdata.rsa_priv_2048)
                          _ eq_refl Hbits))|].
  split; [exact (proj2 (H2048 (nilable.of_rsa_PrivateKey testdata.rsa_priv_2048)
                          _ eq_refl Hbits))|].
  split; [exact (proj1 (Hrsa (nilable.mk_rsa_PrivateKey
                                (nilable.of_rsa_PublicKey testdata.rsa_pub)
                                None [])
                          _ 12 eq_refl eq_refl Hbits12 Hfit12))|].
  split; [exact (proj1 (Hp256 (nilable.of_ecdsa_PrivateKey testdata.ec_priv)
                          eq_refl))|].
  split; [exact (proj2 (Hp256 (nilable.of_ecdsa_PrivateKey testdata.ec_priv)
                          eq_refl))|].
  split; [exact (proj1 (Hec (nilable.mk_ecdsa_PrivateKey
                               (nilable.of_ecdsa_PublicKey
                                  testdata.ec_pub_other_curve) None)
                          _ eq_refl))|].
  split; [apply (Hother (nilable.ptr_dsa_PublicKey None)); simpl; intros H;
          repeat (destruct H as [H|H]; [discriminate H|]); exact H|].
  split; [exact (Hret (to_nilable (ptr_rsa_PublicKey testdata.rsa_pub))
                   eq_refl)|].
  exact (Hpanic (nilable.ptr_rsa_PrivateKey None) eq_refl).
Defined.

(** An Ed25519 private key of the size the library fixes, 64 bytes, has
    size 512 and not 256. *)
Lemma KeySize_ed25519_private_512 :
  len testdata.ed_priv = ed25519.PrivateKeySize /\
  KeySize (val_ed25519_PrivateKey testdata.ed_priv) = 512 /\
  KeySize (val_ed25519_PrivateKey testdata.ed_priv) <> 256.
Proof.
  repeat split. vm_compute. discriminate.
Qed.

(** C8 (amended). For an Ed25519 key, public or private, [KeySize] is the
    length of the raw key in bytes times 8, as long as that fits an int.
    That is 256 for a public key, which has 32 bytes, and 512 for a private
    key, which has 64. *)
Theorem KeySize_ed25519 (raw : list byte) :
  len raw * 8 <= max_int ->
  KeySize (val_ed25519_PublicKey raw) = len raw * 8 /\
  KeySize (val_ed25519_PrivateKey raw) = len raw * 8 /\
  (len raw = ed25519.PublicKeySize ->
   KeySize (val_ed25519_PublicKey raw) = 256) /\
  (len raw = ed25519.PrivateKeySize ->
   KeySize (val_ed25519_PrivateKey raw) = 512).
Proof.
  intros Hfit.
  assert (Hwrap : int_mul (len raw) 8 = len raw * 8).
  { unfold int_mul. apply int_wrap_id.
    unfold len, min_int in *. lia. }
  unfold KeySize. rewrite Hwrap.
  unfold ed25519.PublicKeySize, ed25519.PrivateKeySize.
  repeat split; intros ->; reflexivity.
Qed.

Lemma KeySize_ed25519_witness :
  KeySize (val_ed25519_PublicKey testdata.ed_pub) = 256 /\
  KeySize (val_ed25519_PrivateKey testdata.ed_priv) = 512.
Proof.
  split.
  - destruct (KeySize_ed25519 testdata.ed_pub) as (_ & _ & Hpub & _).
    + vm_compute. discriminate.
    + apply Hpub. reflexivity.
  - destruct (KeySize_ed25519 testdata.ed_priv) as (_ & _ & _ & Hpriv).
    + vm_compute. discriminate.
    + apply Hpriv. reflexivity.
Defined.

(** The by-value DSA clauses give the number of bits of Y. *)
Lemma KeySize_dsa_bits (pub : dsa.PublicKey) (n : Z) :
  0 < n -> 2 ^ (n - 1) <= dsa.Y pub < 2 ^ n ->
  KeySize (val_dsa_PublicKey pub) = n.
Proof.
  intros Hn HY. simpl. apply BitLen_unique; assumption.
Qed.

(** C10. A DSA key passed by value, private or public, has as its size the
    bit length of Y, which is never the sentinel; a pointer to a DSA key,
    private or public, matches no case and has size -1. *)
Theorem KeySize_dsa (pub : dsa.PublicKey) (priv : dsa.PrivateKey) :
  KeySize (val_dsa_PrivateKey priv)
  = big.BitLen (dsa.Y (dsa.PrivateKey_PublicKey priv)) /\
  KeySize (val_dsa_PublicKey pub) = big.BitLen (dsa.Y pub) /\
  KeySize (val_dsa_PrivateKey priv) <> -1 /\
  KeySize (val_dsa_PublicKey pub) <> -1 /\
  KeySize (ptr_dsa_PrivateKey priv) = -1 /\
  KeySize (ptr_dsa_PublicKey pub) = -1.
Proof.
  pose proof (BitLen_nonneg (dsa.Y (dsa.PrivateKey_PublicKey priv))).
  pose proof (BitLen_nonneg (dsa.Y pub)).
  simpl. repeat split; lia.
Qed.

Example KeySize_dsa_pub :
  KeySize (val_dsa_PublicKey testdata.dsa_pub) = 8 /\
  KeySize (val_dsa_PrivateKey testdata.dsa_priv) = 8 /\
  KeySize (ptr_dsa_PublicKey testdata.dsa_pub) = -1 /\
  KeySize (ptr_dsa_PrivateKey testdata.dsa_priv) = -1.
Proof. repeat split. Qed.

(** * Further properties *)

(** ** ComparePublicKeys: errors and symmetry *)

Lemma Cmp_ne_sym (x y : big.Int) :
  negb (big.Cmp x y =? 0) = negb (big.Cmp y x =? 0).
Proof.
  rewrite !Cmp_eq0, (Z.eqb_sym x y). reflexivity.
Qed.

Lemma bytes_eqb_sym (x y : list byte) :
  ed25519.bytes_eqb x y = ed25519.bytes_eqb y x.
Proof.
  destruct (ed25519.bytes_eqb x y) eqn:Hxy; symmetry.
  - apply bytes_eqb_eq. symmetry. apply bytes_eqb_eq. exact Hxy.
  - destruct (ed25519.bytes_eqb y x) eqn:Hyx; [|reflexivity].
    apply bytes_eqb_eq in Hyx. subst y.
    rewrite bytes_eqb_refl in Hxy. discriminate Hxy.
Qed.

Lemma ComparePublicKeys_rsa_sym (a b : rsa.PublicKey) :
  ComparePublicKeys (ptr_rsa_PublicKey a) (ptr_rsa_PublicKey b)
  = ComparePublicKeys (ptr_rsa_PublicKey b) (ptr_rsa_PublicKey a).
Proof.
  rewrite !ComparePublicKeys_rsa_value.
  rewrite (Z.eqb_sym (rsa.N a)), (Z.eqb_sym (rsa.E a)). reflexivity.
Qed.

Lemma ComparePublicKeys_ecdsa_sym (a b : ecdsa.PublicKey) :
  ComparePublicKeys (ptr_ecdsa_PublicKey a) (ptr_ecdsa_PublicKey b)
  = ComparePublicKeys (ptr_ecdsa_PublicKey b) (ptr_ecdsa_PublicKey a).
Proof.
  simpl.
  rewrite (Cmp_ne_sym (ecdsa.X a)), (Cmp_ne_sym (ecdsa.Y a)).
  rewrite (Cmp_ne_sym (elliptic.P (ecdsa.Params a))),
    (Cmp_ne_sym (elliptic.N (ecdsa.Params a))),
    (Cmp_ne_sym (elliptic.B (ecdsa.Params a))),
    (Cmp_ne_sym (elliptic.Gx (ecdsa.Params a))),
    (Cmp_ne_sym (elliptic.Gy (ecdsa.Params a))).
  rewrite (Z.eqb_sym (elliptic.BitSize (ecdsa.Params a))). reflexivity.
Qed.

Lemma ComparePublicKeys_ed25519_sym (a b : ed25519.PublicKey) :
  ComparePublicKeys (val_ed25519_PublicKey a) (val_ed25519_PublicKey b)
  = ComparePublicKeys (val_ed25519_PublicKey b) (val_ed25519_PublicKey a).
Proof.
  simpl. unfold ed25519.Equal. rewrite bytes_eqb_sym. reflexivity.
Qed.

(** Two keys of one family are compared without an error. *)
Lemma ComparePublicKeys_same_family (a b : any) (f : family) :
  family_of a = Some f -> family_of b = Some f ->
  snd (ComparePublicKeys a b) = None.
Proof.
  intros Ha Hb.
  destruct a; try discriminate Ha; destruct b; try discriminate Hb;
    injection Ha as <-; try discriminate Hb.
  - reflexivity.
  - apply ComparePublicKeys_ecdsa_no_error.
  - reflexivity.
Qed.

(** In every other case there is an error, and the boolean is false. *)
Lemma ComparePublicKeys_other_family (a b : any) :
  (forall f, family_of a = Some f -> family_of b <> Some f) ->
  exists err, ComparePublicKeys a b = (false, Some err).
Proof.
  intros H.
  destruct a; try (eexists; reflexivity);
    destruct b; try (eexists; reflexivity);
    exfalso; eapply H; reflexivity.
Qed.

Lemma same_family_dec (a b : any) :
  (exists f, family_of a = Some f /\ family_of b = Some f) \/
  (forall f, family_of a = Some f -> family_of b <> Some f).
Proof.
  destruct (family_of a) as [[]|]; destruct (family_of b) as [[]|];
    try (left; eexists; split; reflexivity);
    right; intros f Hf; congruence.
Qed.

(** X1. The comparison does not depend on the order of its arguments: the
    boolean is the same, and an error is reported for (a, b) exactly when
    one is reported for (b, a). *)
Theorem ComparePublicKeys_sym (a b : any) :
  fst (ComparePublicKeys a b) = fst (ComparePublicKeys b a) /\
  (snd (ComparePublicKeys a b) = None
   <-> snd (ComparePublicKeys b a) = None).
Proof.
  destruct (same_family_dec a b) as [(f & Ha & Hb) | Hdiff].
  - destruct a; try discriminate Ha; destruct b; try discriminate Hb;
      injection Ha as <-; try discriminate Hb.
    + rewrite ComparePublicKeys_rsa_sym. tauto.
    + rewrite ComparePublicKeys_ecdsa_sym. tauto.
    + rewrite ComparePublicKeys_ed25519_sym. tauto.
  - destruct (ComparePublicKeys_other_family a b Hdiff) as [e1 ->].
    destruct (ComparePublicKeys_other_family b a) as [e2 ->].
    + intros f Hb Ha. exact (Hdiff f Ha Hb).
    + simpl. split; [reflexivity | split; discriminate].
Qed.

(** X2. An error is reported exactly when the two keys are not of one and
    the same supported family, and whenever there is an error the boolean is
    false. *)
Theorem ComparePublicKeys_error_iff (a b : any) :
  (snd (ComparePublicKeys a b) = None
   <-> exists f, family_of a = Some f /\ family_of b = Some f) /\
  (snd (ComparePublicKeys a b) = None \/ fst (ComparePublicKeys a b) = false).
Proof.
  destruct (same_family_dec a b) as [(f & Ha & Hb) | Hdiff].
  - pose proof (ComparePublicKeys_same_family a b f Ha Hb) as Hnone.
    split; [split; [intros _; exists f; tauto | intros _; exact Hnone]|].
    left. exact Hnone.
  - destruct (ComparePublicKeys_other_family a b Hdiff) as [e ->]. simpl.
    split; [split; [discriminate|] | right; reflexivity].
    intros (f & Ha & Hb). exfalso. exact (Hdiff f Ha Hb).
Qed.

(** X3. Two Ed25519 keys compare equal, without error, exactly when they
    hold the same bytes. *)
Theorem ComparePublicKeys_ed25519 (a b : ed25519.PublicKey) :
  snd (ComparePublicKeys (val_ed25519_PublicKey a) (val_ed25519_PublicKey b))
  = None /\
  (fst (ComparePublicKeys (val_ed25519_PublicKey a)
          (val_ed25519_PublicKey b)) = true
   <-> a = b).
Proof.
  simpl. split; [reflexivity|]. unfold ed25519.Equal. apply bytes_eqb_eq.
Qed.

(** X4. A first key that is not an RSA, EC or Ed25519 public key (a private
    key, a DSA key, nil) is refused with an error that names its type,
    whatever the second key is, also when the second key is the same
    value. *)
Theorem ComparePublicKeys_first_unsupported (key1 key2 : any) :
  family_of key1 = None ->
  ComparePublicKeys key1 key2
  = (false,
     Some (errors.New
             ("unsupported key type: " ++ fmt.type_name (type_of key1)))) /\
  ComparePublicKeys key1 key1 = ComparePublicKeys key1 key2.
Proof.
  intros H. rewrite !(ComparePublicKeys_unsupported key1) by exact H.
  split; reflexivity.
Qed.

Lemma ComparePublicKeys_first_unsupported_witness :
  ComparePublicKeys (ptr_rsa_PrivateKey testdata.rsa_priv_2048)
                    (ptr_rsa_PublicKey testdata.rsa_pub_2048)
  = (false, Some (errors.New "unsupported key type: *rsa.PrivateKey")) /\
  ComparePublicKeys (ptr_rsa_PrivateKey testdata.rsa_priv_2048)
                    (ptr_rsa_PrivateKey testdata.rsa_priv_2048)
  = ComparePublicKeys (ptr_rsa_PrivateKey testdata.rsa_priv_2048)
                      (ptr_rsa_PublicKey testdata.rsa_pub_2048).
Proof.
  apply (ComparePublicKeys_first_unsupported
           (ptr_rsa_PrivateKey testdata.rsa_priv_2048)
           (ptr_rsa_PublicKey testdata.rsa_pub_2048)).
  reflexivity.
Defined.

(** X5. For two EC keys the comparison reads the point and the six numeric
    curve parameters and nothing else: a second key on a curve with the
    same six parameters and the same point, whatever the curve's name,
    gives the same result. *)
Theorem ComparePublicKeys_ecdsa_name (a b b' : ecdsa.PublicKey) :
  ecdsa.X b = ecdsa.X b' -> ecdsa.Y b = ecdsa.Y b' ->
  same_domain_parameters (ecdsa.Params b) (ecdsa.Params b') ->
  ComparePublicKeys (ptr_ecdsa_PublicKey a) (ptr_ecdsa_PublicKey b)
  = ComparePublicKeys (ptr_ecdsa_PublicKey a) (ptr_ecdsa_PublicKey b').
Proof.
  intros HX HY (HP & HN & HB & HGx & HGy & HBits). simpl.
  rewrite HX, HY, HP, HN, HB, HGx, HGy, HBits. reflexivity.
Qed.

Lemma ComparePublicKeys_ecdsa_name_witness :
  ComparePublicKeys (ptr_ecdsa_PublicKey testdata.ec_pub_2)
                    (ptr_ecdsa_PublicKey testdata.ec_pub)
  = ComparePublicKeys (ptr_ecdsa_PublicKey testdata.ec_pub_2)
                      (ptr_ecdsa_PublicKey testdata_labelled.ec_pub_renamed).
Proof.
  exact (ComparePublicKeys_ecdsa_name testdata.ec_pub_2 testdata.ec_pub
           testdata_labelled.ec_pub_renamed eq_refl eq_refl
           (conj eq_refl (conj eq_refl (conj eq_refl
              (conj eq_refl (conj eq_refl eq_refl)))))).
Defined.

(** ** The parsers: what a result tells about the input *)

Lemma switch_rawKey_Ok (rawKey key : any) :
  switch_rawKey rawKey = Ok key -> key = rawKey /\ family_of key <> None.
Proof.
  intros H. pose proof (switch_rawKey_family rawKey) as Hsw.
  destruct (family_of rawKey) eqn:Hfam.
  - rewrite Hsw in H. injection H as <-. split; congruence.
  - rewrite Hsw in H. discriminate H.
Qed.

Lemma switch_rawKey_Err (rawKey : any) (err : error) :
  switch_rawKey rawKey = Err err ->
  family_of rawKey = None /\
  err = errors.New
          ("unsupported key type: " ++ fmt.type_name (type_of rawKey)).
Proof.
  intros H. pose proof (switch_rawKey_family rawKey) as Hsw.
  destruct (family_of rawKey) eqn:Hfam.
  - rewrite Hsw in H. discriminate H.
  - rewrite Hsw in H. injection H as <-. split; reflexivity.
Qed.

Lemma family_KeySize_types (key : any) (f : family) :
  family_of key = Some f -> In (type_of key) KeySize_types.
Proof.
  intros Hfam. destruct key; try discriminate Hfam; simpl; tauto.
Qed.

Section ParserInversion.
Variable pem_Decode : list byte -> option pem.Block * list byte.
Variable x509_ParsePKCS1PrivateKey : list byte -> result rsa.PrivateKey.
Variable x509_ParseECPrivateKey : list byte -> result ecdsa.PrivateKey.
Variable x509_ParseCertificate : list byte -> result x509.Certificate.
Variable x509_ParsePKIXPublicKey : list byte -> result any.

Let ParseRSA := certutil.ParseRSA pem_Decode x509_ParsePKCS1PrivateKey.
Let ParseECDSA := certutil.ParseECDSA pem_Decode x509_ParseECPrivateKey.
Let ParseX509 := certutil.ParseX509 pem_Decode x509_ParseCertificate.
Let ParsePublicKey :=
  certutil.ParsePublicKey
    pem_Decode x509_ParseCertificate x509_ParsePKIXPublicKey.

(** The key that the two decoding stages hand to the type switch. *)
Definition stage_key (block : pem.Block) (rawKey : any) : Prop :=
  x509_ParsePKIXPublicKey (pem.Bytes block) = Ok rawKey \/
  (exists err1 cert,
      x509_ParsePKIXPublicKey (pem.Bytes block) = Err err1 /\
      x509_ParseCertificate (pem.Bytes block) = Ok cert /\
      x509.PublicKey cert = rawKey).

(** X6. The parsers read nothing of a block but its bytes: two inputs
    whose first blocks hold the same bytes get the same result from each of
    the four parsers, whatever the blocks' types and headers and whatever
    follows the blocks. *)
Theorem parsers_read_block_bytes (s1 s2 : string) (block1 block2 : pem.Block)
        (rest1 rest2 : list byte) :
  pem_Decode (bytes_of_string s1) = (Some block1, rest1) ->
  pem_Decode (bytes_of_string s2) = (Some block2, rest2) ->
  pem.Bytes block1 = pem.Bytes block2 ->
  ParseRSA s1 = ParseRSA s2 /\
  ParseECDSA s1 = ParseECDSA s2 /\
  ParseX509 s1 = ParseX509 s2 /\
  ParsePublicKey s1 = ParsePublicKey s2.
Proof.
  intros H1 H2 Hbytes.
  unfold ParseRSA, ParseECDSA, ParseX509, ParsePublicKey,
    certutil.ParseRSA, certutil.ParseECDSA, certutil.ParseX509,
    certutil.ParsePublicKey.
  rewrite H1, H2, Hbytes. repeat split.
Qed.

Lemma ParsePublicKey_cases (s : string) :
  (fst (pem_Decode (bytes_of_string s)) = None /\
   ParsePublicKey s
   = Err (errors.New "data does not contain any valid public keys")) \/
  (exists block rest,
      pem_Decode (bytes_of_string s) = (Some block, rest) /\
      ((exists rawKey,
           stage_key block rawKey /\
           ParsePublicKey s = switch_rawKey rawKey) \/
       (exists err1 err2,
           x509_ParsePKIXPublicKey (pem.Bytes block) = Err err1 /\
           x509_ParseCertificate (pem.Bytes block) = Err err2 /\
           ParsePublicKey s = Err err2))).
Proof.
  unfold ParsePublicKey, certutil.ParsePublicKey, stage_key.
  destruct (pem_Decode (bytes_of_string s)) as [[block|] rest].
  - right. exists block, rest. split; [reflexivity|].
    destruct (x509_ParsePKIXPublicKey (pem.Bytes block)) as [rawKey|err1].
    + left. exists rawKey. split; [left|]; reflexivity.
    + destruct (x509_ParseCertificate (pem.Bytes block)) as [cert|err2].
      * left. exists (x509.PublicKey cert). split; [|reflexivity].
        right. exists err1, cert. repeat split.
      * right. exists err1, err2. repeat split.
  - left. split; reflexivity.
Qed.

Lemma ParsePublicKey_Ok_family (s : string) (key : any) :
  ParsePublicKey s = Ok key -> family_of key <> None.
Proof.
  intros H.
  destruct (ParsePublicKey_cases s)
    as [[_ He] | (block & rest & _ & [(rawKey & _ & He) | (e1 & e2 & _ & _ & He)])];
    rewrite He in H; try discriminate H.
  apply switch_rawKey_Ok in H. exact (proj2 H).
Qed.

(** X7. A key that [ParsePublicKey] returns is an RSA, EC or Ed25519 public
    key, and it is the key that a decoder gave for the bytes of the first
    block: the SubjectPublicKeyInfo decoder, or the certificate decoder
    after the first had failed. *)
Theorem ParsePublicKey_Ok_inv (s : string) (key : any) :
  ParsePublicKey s = Ok key ->
  family_of key <> None /\
  exists block rest,
    pem_Decode (bytes_of_string s) = (Some block, rest) /\
    stage_key block key.
Proof.
  intros H. split; [exact (ParsePublicKey_Ok_family s key H)|].
  destruct (ParsePublicKey_cases s)
    as [[_ He] | (block & rest & Hd & [(rawKey & Hst & He) | (e1 & e2 & _ & _ & He)])];
    rewrite He in H; try discriminate H.
  apply switch_rawKey_Ok in H. destruct H as [-> _].
  exists block, rest. split; assumption.
Qed.

(** X8. An error of [ParsePublicKey] is one of three: the no-block error,
    on an input without a block; the certificate decoder's error, when both
    decoders failed; or the unsupported-type error for the key that a
    decoder gave. The error of the SubjectPublicKeyInfo decoder is never
    passed on. *)
Theorem ParsePublicKey_Err_inv (s : string) (err : error) :
  ParsePublicKey s = Err err ->
  (fst (pem_Decode (bytes_of_string s)) = None /\
   err = errors.New "data does not contain any valid public keys") \/
  (exists block rest,
      pem_Decode (bytes_of_string s) = (Some block, rest) /\
      ((exists err1,
           x509_ParsePKIXPublicKey (pem.Bytes block) = Err err1 /\
           x509_ParseCertificate (pem.Bytes block) = Err err) \/
       (exists rawKey,
           stage_key block rawKey /\ family_of rawKey = None /\
           err = errors.New
                   ("unsupported key type: "
                    ++ fmt.type_name (type_of rawKey))))).
Proof.
  intros H.
  destruct (ParsePublicKey_cases s)
    as [[Hd He] | (block & rest & Hd & [(rawKey & Hst & He) | (e1 & e2 & H1 & H2 & He)])];
    rewrite He in H.
  - left. injection H as <-. split; [exact Hd | reflexivity].
  - right. exists block, rest. split; [exact Hd|]. right.
    apply switch_rawKey_Err in H. destruct H as [Hfam ->].
    exists rawKey. repeat split; assumption.
  - right. exists block, rest. split; [exact Hd|]. left.
    injection H as <-. exists e1. split; assumption.
Qed.

(** X9. A key that [ParsePublicKey] returns is of a type that [KeySize]
    has a case for, and [ComparePublicKeys] compares it with itself
    without an error. *)
Theorem ParsePublicKey_then_KeySize (s : string) (key : any) :
  ParsePublicKey s = Ok key ->
  In (type_of key) KeySize_types /\
  snd (ComparePublicKeys key key) = None.
Proof.
  intros H. apply ParsePublicKey_Ok_family in H.
  destruct (family_of key) as [f|] eqn:Hfam;
    [clear H | exfalso; exact (H eq_refl)].
  split.
  - exact (family_KeySize_types key f Hfam).
  - exact (ComparePublicKeys_same_family key key f Hfam Hfam).
Qed.
End ParserInversion.

Lemma parsers_read_block_bytes_witness :
  certutil.ParseRSA testdata_labelled.pem_Decode
    testdata.x509_ParsePKCS1PrivateKey "-Rabc"
  = certutil.ParseRSA testdata_labelled.pem_Decode
      testdata.x509_ParsePKCS1PrivateKey "+R" /\
  certutil.ParseECDSA testdata_labelled.pem_Decode
    testdata.x509_ParseECPrivateKey "-Rabc"
  = certutil.ParseECDSA testdata_labelled.pem_Decode
      testdata.x509_ParseECPrivateKey "+R" /\
  certutil.ParseX509 testdata_labelled.pem_Decode
    testdata.x509_ParseCertificate "-Rabc"
  = certutil.ParseX509 testdata_labelled.pem_Decode
      testdata.x509_ParseCertificate "+R" /\
  certutil.ParsePublicKey testdata_labelled.pem_Decode
    testdata.x509_ParseCertificate testdata.x509_ParsePKIXPublicKey "-Rabc"
  = certutil.ParsePublicKey testdata_labelled.pem_Decode
      testdata.x509_ParseCertificate testdata.x509_ParsePKIXPublicKey "+R".
Proof.
  exact (parsers_read_block_bytes
           testdata_labelled.pem_Decode testdata.x509_ParsePKCS1PrivateKey
           testdata.x509_ParseECPrivateKey testdata.x509_ParseCertificate
           testdata.x509_ParsePKIXPublicKey "-Rabc" "+R"
           (pem.mkBlock "CERTIFICATE" [] [x52])
           (pem.mkBlock "RSA PRIVATE KEY" [] [x52])
           [x61; x62; x63] [] eq_refl eq_refl eq_refl).
Defined.

Lemma ParsePublicKey_Ok_inv_witness :
  family_of (val_ed25519_PublicKey [x61; x62]) <> None /\
  exists block rest,
    testdata.pem_Decode (bytes_of_string "-Cab") = (Some block, rest) /\
    stage_key testdata.x509_ParseCertificate testdata.x509_ParsePKIXPublicKey
      block (val_ed25519_PublicKey [x61; x62]).
Proof.
  exact (ParsePublicKey_Ok_inv
           testdata.pem_Decode testdata.x509_ParseCertificate
           testdata.x509_ParsePKIXPublicKey "-Cab"
           (val_ed25519_PublicKey [x61; x62]) eq_refl).
Defined.

Lemma ParsePublicKey_Err_inv_witness :
  (fst (testdata.pem_Decode (bytes_of_string "-x")) = None /\
   errors.New "x509: malformed certificate"
   = errors.New "data does not contain any valid public keys") \/
  (exists block rest,
      testdata.pem_Decode (bytes_of_string "-x") = (Some block, rest) /\
      ((exists err1,
           testdata.x509_ParsePKIXPublicKey (pem.Bytes block) = Err err1 /\
           testdata.x509_ParseCertificate (pem.Bytes block)
           = Err (errors.New "x509: malformed certificate")) \/
       (exists rawKey,
           stage_key testdata.x509_ParseCertificate
             testdata.x509_ParsePKIXPublicKey block rawKey /\
           family_of rawKey = None /\
           errors.New "x509: malformed certificate"
           = errors.New
               ("unsupported key type: "
                ++ fmt.type_name (type_of rawKey))))).
Proof.
  exact (ParsePublicKey_Err_inv
           testdata.pem_Decode testdata.x509_ParseCertificate
           testdata.x509_ParsePKIXPublicKey "-x"
           (errors.New "x509: malformed certificate") eq_refl).
Defined.

Lemma ParsePublicKey_then_KeySize_witness :
  In (type_of (val_ed25519_PublicKey [x61; x62])) KeySize_types /\
  snd (ComparePublicKeys (val_ed25519_PublicKey [x61; x62])
         (val_ed25519_PublicKey [x61; x62])) = None.
Proof.
  exact (ParsePublicKey_then_KeySize
           testdata.pem_Decode testdata.x509_ParseCertificate
           testdata.x509_ParsePKIXPublicKey "-Kab"
           (val_ed25519_PublicKey [x61; x62]) eq_refl).
Defined.

(** ** KeySize: rounding, key pairs and the sentinel *)

Lemma Size_div (pub : rsa.PublicKey) :
  rsa.Size pub = (big.BitLen (rsa.N pub) + 7) / 8.
Proof.
  unfold rsa.Size. pose proof (BitLen_nonneg (rsa.N pub)).
  apply Z.quot_div_nonneg; lia.
Qed.

(** X10. The size of an RSA key, public or private, is the bit length of
    the modulus rounded up to a multiple of 8 (for every bit length that
    leaves room for the rounding in an int): a modulus of 2047 bits has size
    2048. *)
Theorem KeySize_rsa_rounds_up (priv : rsa.PrivateKey) :
  let pub := rsa.PrivateKey_PublicKey priv in
  big.BitLen (rsa.N pub) + 7 <= max_int ->
  KeySize (ptr_rsa_PublicKey pub) mod 8 = 0 /\
  big.BitLen (rsa.N pub) <= KeySize (ptr_rsa_PublicKey pub)
  < big.BitLen (rsa.N pub) + 8 /\
  KeySize (ptr_rsa_PrivateKey priv) = KeySize (ptr_rsa_PublicKey pub).
Proof.
  intros pub Hfit.
  pose proof (BitLen_nonneg (rsa.N pub)) as Hnn.
  pose proof (Z.div_mod (big.BitLen (rsa.N pub) + 7) 8) as Hdm.
  pose proof (Z.mod_pos_bound (big.BitLen (rsa.N pub) + 7) 8) as Hm.
  assert (Hk : KeySize (ptr_rsa_PublicKey pub) = rsa.Size pub * 8).
  { apply KeySize_rsa. rewrite Size_div. lia. }
  rewrite Hk, Size_div. split; [apply Z.mod_mul; lia|].
  split; [lia|].
  change (KeySize (ptr_rsa_PrivateKey priv))
    with (KeySize (ptr_rsa_PublicKey pub)).
  rewrite Hk, Size_div. reflexivity.
Qed.

Lemma KeySize_rsa_rounds_up_witness :
  KeySize (ptr_rsa_PublicKey testdata_labelled.rsa_pub_2047) mod 8 = 0 /\
  big.BitLen (rsa.N testdata_labelled.rsa_pub_2047)
  <= KeySize (ptr_rsa_PublicKey testdata_labelled.rsa_pub_2047)
  < big.BitLen (rsa.N testdata_labelled.rsa_pub_2047) + 8 /\
  KeySize (ptr_rsa_PrivateKey
             (rsa.mkPrivateKey testdata_labelled.rsa_pub_2047 3 []))
  = KeySize (ptr_rsa_PublicKey testdata_labelled.rsa_pub_2047).
Proof.
  apply (KeySize_rsa_rounds_up
           (rsa.mkPrivateKey testdata_labelled.rsa_pub_2047 3 [])).
  vm_compute. discriminate.
Defined.

Lemma len_app (x y : list byte) : len (x ++ y) = len x + len y.
Proof.
  unfold len. rewrite length_app. lia.
Qed.

Lemma len_nonneg (x : list byte) : 0 <= len x.
Proof.
  unfold len. lia.
Qed.

(** X11. An RSA, EC or by-value DSA private key has the size of its public
    key. An Ed25519 private key does not: made of a seed followed by the
    public key, it has the public key's size plus eight times the length of
    the seed (as long as that fits an int). *)
Theorem KeySize_private_public (seed : list byte) (pub : ed25519.PublicKey) :
  len (seed ++ pub) * 8 <= max_int ->
  (forall priv : rsa.PrivateKey,
      KeySize (ptr_rsa_PrivateKey priv)
      = KeySize (ptr_rsa_PublicKey (rsa.PrivateKey_PublicKey priv))) /\
  (forall priv : ecdsa.PrivateKey,
      KeySize (ptr_ecdsa_PrivateKey priv)
      = KeySize (ptr_ecdsa_PublicKey (ecdsa.PrivateKey_PublicKey priv))) /\
  (forall priv : dsa.PrivateKey,
      KeySize (val_dsa_PrivateKey priv)
      = KeySize (val_dsa_PublicKey (dsa.PrivateKey_PublicKey priv))) /\
  KeySize (val_ed25519_PrivateKey (seed ++ pub))
  = KeySize (val_ed25519_PublicKey pub) + len seed * 8.
Proof.
  intros Hfit. repeat split.
  pose proof (len_nonneg seed). pose proof (len_nonneg pub).
  rewrite len_app in Hfit. unfold KeySize, int_mul.
  rewrite len_app, !int_wrap_id by (unfold min_int; lia). lia.
Qed.

Lemma KeySize_private_public_witness :
  KeySize (val_ed25519_PrivateKey testdata.ed_priv)
  = KeySize (val_ed25519_PublicKey testdata.ed_pub) + len testdata.ed_seed * 8.
Proof.
  apply (KeySize_private_public testdata.ed_seed testdata.ed_pub).
  vm_compute. discriminate.
Defined.

Lemma int_mul_8_not_sentinel (x : Z) : int_mul x 8 <> -1.
Proof.
  unfold int_mul, int_wrap. intros H.
  pose proof (Z.div_mod (x * 8 + 2 ^ 63) (2 ^ 64)) as Hdm.
  assert (H64 : 2 ^ 64 = 8 * 2 ^ 61) by reflexivity.
  assert (H63 : 2 ^ 63 = 8 * 2 ^ 60) by reflexivity.
  remember ((x * 8 + 2 ^ 63) / 2 ^ 64) as q.
  remember ((x * 8 + 2 ^ 63) mod 2 ^ 64) as m.
  remember (2 ^ 61) as a. remember (2 ^ 60) as b.
  rewrite H64, H63 in *. 
  assert (Hm : m = 8 * (x + b - a * q)) by lia.
  lia.
Qed.

(** X12. [KeySize] gives -1 exactly for a key of a type that it has no
    case for, and for an EC key whose curve declares the bit size -1. An
    RSA, Ed25519 or by-value DSA key never has the size -1, not even when
    the multiplication overflows. *)
Theorem KeySize_sentinel (key : any) :
  KeySize key = -1 <->
  ~ In (type_of key) KeySize_types \/
  (exists k, key = ptr_ecdsa_PublicKey k /\
             elliptic.BitSize (ecdsa.Params k) = -1) \/
  (exists k, key = ptr_ecdsa_PrivateKey k /\
             elliptic.BitSize (ecdsa.Params (ecdsa.PrivateKey_PublicKey k))
             = -1).
Proof.
  split.
  - intros H.
    destruct key; simpl in H;
      try (left; simpl; intros Hin;
           repeat (destruct Hin as [Hin|Hin]; [discriminate Hin|]);
           exact Hin).
    + exfalso. exact (int_mul_8_not_sentinel _ H).
    + exfalso. exact (int_mul_8_not_sentinel _ H).
    + right. left. exists key. split; [reflexivity | exact H].
    + right. right. exists key. split; [reflexivity | exact H].
    + exfalso. exact (int_mul_8_not_sentinel _ H).
    + exfalso. exact (int_mul_8_not_sentinel _ H).
    + pose proof (BitLen_nonneg (dsa.Y key)). lia.
    + pose proof (BitLen_nonneg (dsa.Y (dsa.PrivateKey_PublicKey key))). lia.
  - intros [Hnot | [(k & -> & Hk) | (k & -> & Hk)]].
    + destruct key; try reflexivity; exfalso; apply Hnot; simpl; tauto.
    + exact Hk.
    + exact Hk.
Qed.
